(** * OBS-to-XAir: scene change dispatch, configuration lookup and lifetime

    A shallow embedding of [__main__.py]: the [Observer] class (scene change
    dispatch, exit handler, construction and teardown), [load_config] with
    its inner [get_filepath], and the two nested [with] blocks of [main].
    Argument parsing and the logging set-up are left out.

    Python side effects are threaded through an explicit [World]; an uncaught
    exception is the [Raise] outcome of a computation and leaves the effects
    made before it in place, as in Python.

    Part I holds the definitions, Part II the lemmas and theorems. *)

From Stdlib Require Import ZArith Lia List.
From stdpp Require Import base option list strings gmap.

Local Open Scope string_scope.
Local Open Scope Z_scope.
Local Open Scope list_scope.

(** * Part I: definitions *)

(** ** Exceptions and outcomes *)

Inductive exc_class : Type :=
  | FileNotFoundError
  | TOMLDecodeError
  | KeyError
  | KeyboardInterrupt
  | OtherError (name : string).

(** An exception object: its class, its message and its [__cause__]
    (set by [raise ... from e]). *)
#[local] Unset Elimination Schemes.
Inductive exn : Type :=
  | Exn (cls : exc_class) (msg : string) (cause : option exn).
#[local] Set Elimination Schemes.

Definition exn_cls (e : exn) : exc_class := let 'Exn c _ _ := e in c.

(** [except tomllib.TOMLDecodeError] *)
Definition is_TOMLDecodeError (e : exn) : bool :=
  match exn_cls e with TOMLDecodeError => true | _ => false end.

Inductive result (A : Type) : Type :=
  | Ok (a : A)
  | Raise (e : exn).
Arguments Ok {A} a.
Arguments Raise {A} e.

(** ** The mixer-control capability

    [self._mixer.strip[i].mute] read and written.  The mixer is an external
    object: the embedding only fixes its interface.  Either call may raise. *)

Class MixerControl (X : Type) : Type := {
  strip_mute_get : Z -> X -> result bool;
  strip_mute_set : Z -> bool -> X -> result X
}.

(** One entry per call made on the capability, in program order. *)
Inductive MixerCall : Type :=
  | ReadMute (ref : Z)
  | SetMute (ref : Z) (value : bool).

(** The connections the program opens. *)
Inductive Client : Type :=
  | ReqClient      (* obs.ReqClient, [self._request] *)
  | EventClient    (* obs.EventClient, [self._event] *)
  | XAirRemote.    (* the object of [xair_api.connect] *)

Global Instance Client_eq_dec : EqDecision Client.
Proof. solve_decision. Defined.

(** ** The world a computation runs in *)

Record World (X : Type) : Type := mkWorld {
  mixer : X;                       (* state behind [self._mixer] *)
  calls : list MixerCall;          (* calls made on the mixer so far *)
  stdout : list string;            (* lines printed so far *)
  stop_event : bool;               (* flag of the [threading.Event] *)
  registered : list string;        (* callbacks registered on the event client *)
  connected : list Client;         (* connections opened, in order *)
  disconnected : list Client       (* connections released, in order *)
}.
Arguments mkWorld {X}.
Arguments mixer {X}.
Arguments calls {X}.
Arguments stdout {X}.
Arguments stop_event {X}.
Arguments registered {X}.
Arguments connected {X}.
Arguments disconnected {X}.

(** ** State and exception monad *)

Definition M (X A : Type) : Type := World X -> result A * World X.

Definition ret {X A} (a : A) : M X A := fun w => (Ok a, w).

Definition bind {X A B} (m : M X A) (k : A -> M X B) : M X B :=
  fun w => match m w with
           | (Ok a, w') => k a w'
           | (Raise e, w') => (Raise e, w')
           end.

Definition raise {X A} (e : exn) : M X A := fun w => (Raise e, w).

Definition lift {X A} (r : result A) : M X A := fun w => (r, w).

Declare Scope py_scope.
Delimit Scope py_scope with py.
Notation "x <- m ;; k" := (bind m (fun x => k))
  (at level 100, m at next level, right associativity) : py_scope.
Notation "m ;; k" := (bind m (fun _ => k))
  (at level 100, right associativity) : py_scope.
Local Open Scope py_scope.

(** [for x in xs: body x] *)
Fixpoint for_ {X A} (xs : list A) (body : A -> M X unit) : M X unit :=
  match xs with
  | [] => ret tt
  | x :: rest => body x ;; for_ rest body
  end.

(** [print(line)] *)
Definition print {X} (line : string) : M X unit :=
  fun w => (Ok tt, mkWorld (mixer w) (calls w) (stdout w ++ [line]) (stop_event w)
                           (registered w) (connected w) (disconnected w)).

Definition result_of {X A} (m : M X A) (w : World X) : result A := fst (m w).
Definition world_of {X A} (m : M X A) (w : World X) : World X := snd (m w).

(** The value under one scene name: action key to channel indices, in the
    order the keys were declared (a [dict] keeps insertion order). *)
Abbreviation ActionSet := (list (string * list Z)).

(** ** class Observer: the callbacks *)

(** The mapping is taken in the documented shape of the configuration:
    every key of a scene's table holds a list of integers.  Values of other
    TOML types, on which iterating or subtracting raises [TypeError], are
    outside this embedding. *)
Record Observer : Type := {
  _mapping : gmap string ActionSet     (* config["scene_mapping"] *)
}.

Record SceneChangedData : Type := { scene_name : string }.

Section Observer.
Context {X : Type} `{MixerControl X}.

Definition record_call (c : MixerCall) (w : World X) : World X :=
  mkWorld (mixer w) (calls w ++ [c]) (stdout w) (stop_event w)
          (registered w) (connected w) (disconnected w).

Definition with_mixer (x : X) (w : World X) : World X :=
  mkWorld x (calls w) (stdout w) (stop_event w)
          (registered w) (connected w) (disconnected w).

(** [self._mixer.strip[i].mute] *)
Definition mixer_strip_mute (i : Z) : M X bool :=
  fun w => let w' := record_call (ReadMute i) w in
           match strip_mute_get i (mixer w) with
           | Ok b => (Ok b, w')
           | Raise e => (Raise e, w')
           end.

(** [self._mixer.strip[i].mute = b] *)
Definition mixer_strip_set_mute (i : Z) (b : bool) : M X unit :=
  fun w => let w' := record_call (SetMute i b) w in
           match strip_mute_set i b (mixer w) with
           | Ok x' => (Ok tt, with_mixer x' w')
           | Raise e => (Raise e, w')
           end.

Definition _mute_handler (i : Z) : M X unit :=
  mixer_strip_set_mute i true.

Definition _unmute_handler (i : Z) : M X unit :=
  mixer_strip_set_mute i false.

Definition _toggle_handler (i : Z) : M X unit :=
  b <- mixer_strip_mute i ;; mixer_strip_set_mute i (negb b).

(** The [actions] dictionary built on each call. *)
Definition actions : gmap string (Z -> M X unit) :=
  {[ "mute" := _mute_handler;
     "unmute" := _unmute_handler;
     "toggle" := _toggle_handler ]}.

(** [d[key]] *)
Definition getitem {V} (d : gmap string V) (key : string) : M X V :=
  match d !! key with
  | Some v => ret v
  | None => raise (Exn KeyError key None)
  end.

(** The body of [for action, indices in map_.items()]. *)
Definition item_body (item : string * list Z) : M X unit :=
  let '(action, indices) := item in
  if bool_decide (is_Some (actions !! action)) then
    for_ indices (fun i =>
      handler <- getitem actions action ;;
      handler (i - 1))
  else ret tt.

Definition on_current_program_scene_changed
    (self : Observer) (data : SceneChangedData) : M X unit :=
  let scene := scene_name data in
  print ("Switched to scene " +:+ scene) ;;
  match _mapping self !! scene with
  | None | Some [] => ret tt            (* [not map_]: absent, or empty *)
  | Some map_ => for_ map_ item_body
  end.

(** [self._stop_event.set()] *)
Definition stop_event_set : M X unit :=
  fun w => (Ok tt, mkWorld (mixer w) (calls w) (stdout w) true
                           (registered w) (connected w) (disconnected w)).

Definition on_exit_started (self : Observer) (_data : unit) : M X unit :=
  print "OBS closing" ;;
  stop_event_set.

End Observer.

(** ** The dispatch as the specification words it *)

Inductive ActionKind : Type := Mute | Unmute | Toggle.

Definition kind_of_key (key : string) : option ActionKind :=
  if decide (key = "mute") then Some Mute
  else if decide (key = "unmute") then Some Unmute
  else if decide (key = "toggle") then Some Toggle
  else None.

(** Declared-order flattening of an ActionSet into (kind, index) pairs;
    a key outside the three kinds gives no pair. *)
Definition flatten (aset : ActionSet) : list (ActionKind * Z) :=
  flat_map (fun '(key, indices) =>
              match kind_of_key key with
              | Some kind => map (pair kind) indices
              | None => []
              end) aset.

Section Dispatcher.
Context {X : Type} `{MixerControl X}.

(** Mute: set-mute(true); Unmute: set-mute(false);
    Toggle: set-mute(not read-mute-state()). *)
Definition perform (kind : ActionKind) (ref : Z) : M X unit :=
  match kind with
  | Mute => mixer_strip_set_mute ref true
  | Unmute => mixer_strip_set_mute ref false
  | Toggle => state <- mixer_strip_mute ref ;;
              mixer_strip_set_mute ref (negb state)
  end.

(** Each pair in turn, addressed at ChannelRef [index - 1]. *)
Definition dispatch_pairs (ps : list (ActionKind * Z)) : M X unit :=
  for_ ps (fun '(kind, index) => perform kind (index - 1)).

End Dispatcher.

(** The calls one pair makes when the read of the mute state answers
    [state]. *)
Definition calls_of (kind : ActionKind) (ref : Z) (state : bool) : list MixerCall :=
  match kind with
  | Mute => [SetMute ref true]
  | Unmute => [SetMute ref false]
  | Toggle => [ReadMute ref; SetMute ref (negb state)]
  end.

(** ** A mixer that is a table of mute flags, one per reference; it accepts
    every reference and never raises *)

Definition flag_set (ref : Z) (b : bool) (flags : Z -> bool) : Z -> bool :=
  fun j => if bool_decide (j = ref) then b else flags j.

Global Instance FlagMixer : MixerControl (Z -> bool) := {
  strip_mute_get i flags := Ok (flags i);
  strip_mute_set i b flags := Ok (flag_set i b flags)
}.

(** Sequential application of pairs to a table of flags. *)
Definition apply_kind (kind : ActionKind) (ref : Z) (flags : Z -> bool) : Z -> bool :=
  match kind with
  | Mute => flag_set ref true flags
  | Unmute => flag_set ref false flags
  | Toggle => flag_set ref (negb (flags ref)) flags
  end.

Fixpoint apply_pairs (ps : list (ActionKind * Z)) (flags : Z -> bool) : Z -> bool :=
  match ps with
  | [] => flags
  | (kind, index) :: rest => apply_pairs rest (apply_kind kind (index - 1) flags)
  end.

(** The calls of a list of pairs, each toggle reading the flag as the pairs
    before it left it. *)
Fixpoint expected_calls (ps : list (ActionKind * Z)) (flags : Z -> bool)
    : list MixerCall :=
  match ps with
  | [] => []
  | (kind, index) :: rest =>
      calls_of kind (index - 1) (flags (index - 1))
      ++ expected_calls rest (apply_kind kind (index - 1) flags)
  end.

Definition after_pairs (ps : list (ActionKind * Z)) (w : World (Z -> bool))
    : World (Z -> bool) :=
  mkWorld (apply_pairs ps (mixer w)) (calls w ++ expected_calls ps (mixer w))
          (stdout w) (stop_event w) (registered w) (connected w) (disconnected w).

(** ** Example configuration *)

Definition demo_mapping : gmap string ActionSet :=
  {[ "START" := [("mute", [1; 3])];
     "LIVE" := [("toggle", [2])];
     "BRB" := [("mute", [1]); ("unmute", [1])];
     "BACK" := [("unmute", [1]); ("mute", [1])];
     "MIXED" := [("mute", [1; 3]); ("note", [7]); ("toggle", [2; 0])];
     "END" := [] ]}.

Definition demo : Observer := {| _mapping := demo_mapping |}.

Definition zero_index : Observer :=
  {| _mapping := {[ "PAUSE" := [("mute", [0])] ]} |}.

Definition world0 (flags : Z -> bool) : World (Z -> bool) :=
  mkWorld flags [] [] false [] [] [].

Definition all_unmuted : Z -> bool := fun _ => false.

(** ** load_config *)

Definition result_bind {A B} (r : result A) (k : A -> result B) : result B :=
  match r with
  | Ok a => k a
  | Raise e => Raise e
  end.

(** [try: body / except <class> as e: handler e] *)
Definition try_except {A} (body : result A) (caught : exn -> bool)
    (handler : exn -> result A) : result A :=
  match body with
  | Ok a => Ok a
  | Raise e => if caught e then handler e else Raise e
  end.

Module ConfigFile.
Section LoadConfig.
(** What [pathlib], the file system and [tomllib] provide. *)
Context {Path File Config : Type}.
Variable Path_ : string -> Path.                 (* [Path(config)] *)
Variable truediv : Path -> string -> Path.       (* [base / name] *)
Variable cwd : Path.                             (* [Path.cwd()] *)
Variable file_parent : Path.                     (* [Path(__file__).parent] *)
Variable home : Path.                            (* [Path.home()] *)
Variable is_file : Path -> bool.                 (* [filepath.is_file()] *)
Variable str : Path -> string.                   (* [{filepath}] in an f-string *)
Variable open_rb : Path -> result File.          (* [open(filepath, "rb")] *)
Variable tomllib_load : File -> result Config.   (* [tomllib.load(f)] *)

(** The tuple the loop of [get_filepath] runs over. *)
Definition candidates (config : string) : list Path :=
  [ Path_ config;
    truediv cwd config;
    truediv file_parent config;
    truediv (truediv (truediv home ".config") "xair-obs") config ].

Definition get_filepath (config : string) : option Path :=
  find is_file (candidates config).

Definition load_config (config : string) : result Config :=
  match get_filepath config with
  | None =>
      Raise (Exn FileNotFoundError ("Config file " +:+ config +:+ " not found") None)
  | Some filepath =>
      try_except
        (result_bind (open_rb filepath) tomllib_load)
        is_TOMLDecodeError
        (fun e => Raise (Exn TOMLDecodeError
                           ("Error decoding config file " +:+ str filepath)
                           (Some e)))
  end.

End LoadConfig.
End ConfigFile.

(** A small file system for examples: paths are strings, joined with a
    slash; the files are the listed ones. *)
Module ToyFS.

Definition join (base name : string) : string := base +:+ "/" +:+ name.

Definition files : list (string * string) :=
  [ ("/opt/xair-obs/config.toml", "[obs]");
    ("/home/op/.config/xair-obs/config.toml", "[xair]");
    ("/opt/xair-obs/broken.toml", "scene_mapping = ") ].

Definition lookup_file (p : string) : option string :=
  snd <$> find (fun entry => bool_decide (fst entry = p)) files.

Definition is_file (p : string) : bool := bool_decide (is_Some (lookup_file p)).

Definition open_rb (p : string) : result string :=
  match lookup_file p with
  | Some text => Ok text
  | None => Raise (Exn FileNotFoundError p None)
  end.

Definition parse_failure : exn :=
  Exn TOMLDecodeError "Invalid value (at line 1, column 17)" None.

(** Stands for a parser: the one text that ends in a dangling [=] is
    refused, any other text is its own parse. *)
Definition load (text : string) : result string :=
  if bool_decide (text = "scene_mapping = ") then Raise parse_failure else Ok text.

Definition get_filepath : string -> option string :=
  ConfigFile.get_filepath id join "/srv/stream" "/opt/xair-obs" "/home/op" is_file.

Definition load_config : string -> result string :=
  ConfigFile.load_config id join "/srv/stream" "/opt/xair-obs" "/home/op"
    is_file id open_rb load.

End ToyFS.

(** ** Lifetime: Observer construction, teardown and main *)

(** Keyword arguments of a connection, as read from the configuration. *)
Abbreviation Kwargs := (list (string * string)).

(** The parsed configuration: its three top-level tables, each of which may
    be missing from the file. *)
Record Config : Type := {
  cfg_xair : option Kwargs;
  cfg_obs : option Kwargs;
  cfg_scene_mapping : option (gmap string ActionSet)
}.

(** What the calls into [xair_api] and [obsws_python] answer: [None] (or
    [Ok]) when the call returns, the exception when it raises. *)
Record Externals : Type := {
  xair_connect : result (string * string * string);  (* kind, ip, port *)
  xair_exit : option exn;
  ReqClient_init : option exn;
  EventClient_init : option exn;
  get_version : result (string * string);  (* obs and websocket versions *)
  ReqClient_disconnect : option exn;
  EventClient_disconnect : option exn
}.

Section Lifetime.
Context {X : Type} `{MixerControl X}.
Variable ext : Externals.

Definition opened (c : Client) (w : World X) : World X :=
  mkWorld (mixer w) (calls w) (stdout w) (stop_event w) (registered w)
          (connected w ++ [c]) (disconnected w).

Definition released (c : Client) (w : World X) : World X :=
  mkWorld (mixer w) (calls w) (stdout w) (stop_event w) (registered w)
          (connected w) (disconnected w ++ [c]).

(** An external call that changes the world when it returns and leaves it
    when it raises. *)
Definition external (answer : option exn) (effect : World X -> World X) : M X unit :=
  fun w => match answer with
           | None => (Ok tt, effect w)
           | Some e => (Raise e, w)
           end.

(** [config[key]] *)
Definition subscript {A} (key : string) (table : option A) : M X A :=
  match table with
  | Some v => ret v
  | None => raise (Exn KeyError key None)
  end.

(** [client.disconnect()], and the exit of the mixer's context manager. *)
Definition disconnect (c : Client) : M X unit :=
  match c with
  | ReqClient => external (ReqClient_disconnect ext) (released ReqClient)
  | EventClient => external (EventClient_disconnect ext) (released EventClient)
  | XAirRemote => external (xair_exit ext) (released XAirRemote)
  end.

(** [self._event.callback.register((..., ...))] *)
Definition callback_register (names : list string) : M X unit :=
  fun w => (Ok tt, mkWorld (mixer w) (calls w) (stdout w) (stop_event w)
                           (registered w ++ names) (connected w) (disconnected w)).

(** [Observer.__init__] *)
Definition Observer__init__ (config : Config) : M X Observer :=
  mapping <- subscript "scene_mapping" (cfg_scene_mapping config) ;;
  _ <- subscript "obs" (cfg_obs config) ;;
  external (ReqClient_init ext) (opened ReqClient) ;;
  _ <- subscript "obs" (cfg_obs config) ;;
  external (EventClient_init ext) (opened EventClient) ;;
  callback_register ["on_current_program_scene_changed"; "on_exit_started"] ;;
  resp <- lift (get_version ext) ;;
  print ("Connected to OBS version:" +:+ fst resp +:+ " "
         +:+ "with websocket version:" +:+ snd resp) ;;
  ret {| _mapping := mapping |}.

(** [Observer.__enter__] *)
Definition Observer__enter__ (self : Observer) : M X Observer := ret self.

(** [Observer.__exit__] *)
Definition Observer__exit__ (self : Observer) : M X unit :=
  for_ [ReqClient; EventClient] disconnect.

(** [with mgr as v: body]: [mgr] is the context expression followed by
    [__enter__]; [exit_] runs when the body returns and when it raises, and
    as it answers [None] the exception of the body is raised again. *)
Definition with_ {A B} (mgr : M X A) (exit_ : A -> M X unit) (body : A -> M X B)
    : M X B :=
  v <- mgr ;;
  fun w => match body v w with
           | (Ok b, w') => (exit_ v ;; ret b) w'
           | (Raise e, w') => (exit_ v ;; raise e) w'
           end.

(** [threading.Event()] *)
Definition new_Event : M X unit :=
  fun w => (Ok tt, mkWorld (mixer w) (calls w) (stdout w) false
                           (registered w) (connected w) (disconnected w)).

(** [xair_api.connect] on the keyword arguments of the xair table, entered
    as a context manager. *)
Definition xair_api_connect (kwargs : Kwargs) : M X (string * string * string) :=
  info <- lift (xair_connect ext) ;;
  external None (opened XAirRemote) ;;
  ret info.

(** [main], from the loaded configuration on.  [wait] is what happens while
    the controlling thread blocks in [stop_event.wait()]: the callbacks the
    event client delivers meanwhile, and how the wait ends.  The model is
    sequential: a callback that the event client's own thread delivers
    between the registration in [Observer.__init__] and the start of the
    wait is not represented. *)
Definition main (loaded : result Config) (wait : Observer -> M X unit) : M X unit :=
  config <- lift loaded ;;
  kwargs <- subscript "xair" (cfg_xair config) ;;
  with_ (xair_api_connect kwargs) (fun _ => disconnect XAirRemote)
    (fun '(kind, xair_ip, xair_port) =>
       print ("Connected to " +:+ kind +:+ " mixer at "
              +:+ xair_ip +:+ ":" +:+ xair_port) ;;
       new_Event ;;
       with_ (self <- Observer__init__ config ;; Observer__enter__ self)
             Observer__exit__
             wait).

End Lifetime.

(** The configuration has its three tables and every call made while
    connecting returns. *)
Definition startup_returns (ext : Externals) (config : Config) : Prop :=
  is_Some (cfg_xair config) /\ is_Some (cfg_obs config)
  /\ is_Some (cfg_scene_mapping config)
  /\ (exists info, xair_connect ext = Ok info)
  /\ ReqClient_init ext = None /\ EventClient_init ext = None
  /\ (exists resp, get_version ext = Ok resp).

(** Every call that releases a connection returns. *)
Definition releases_return (ext : Externals) : Prop :=
  ReqClient_disconnect ext = None /\ EventClient_disconnect ext = None
  /\ xair_exit ext = None.

(** A computation that neither opens nor releases a connection. *)
Definition keeps_handles {X A} (m : M X A) : Prop :=
  forall w,
    connected (world_of m w) = connected w
    /\ disconnected (world_of m w) = disconnected w.

(** A connection that was opened and never released. *)
Definition leaked {X} (c : Client) (w : World X) : Prop :=
  In c (connected w) /\ ~ In c (disconnected w).

Definition demo_config : Config :=
  {| cfg_xair := Some [("ip", "mixer.local")];
     cfg_obs := Some [("host", "localhost"); ("port", "4455")];
     cfg_scene_mapping := Some demo_mapping |}.

Definition all_fine : Externals :=
  {| xair_connect := Ok ("XR18", "192.168.1.20", "10024");
     xair_exit := None;
     ReqClient_init := None;
     EventClient_init := None;
     get_version := Ok ("30.2.3", "5.5.2");
     ReqClient_disconnect := None;
     EventClient_disconnect := None |}.

(** The event client fails to connect after the request client has. *)
Definition event_client_refused : Externals :=
  {| xair_connect := Ok ("XR18", "192.168.1.20", "10024");
     xair_exit := None;
     ReqClient_init := None;
     EventClient_init :=
       Some (Exn (OtherError "ConnectionRefusedError") "Connection refused" None);
     get_version := Ok ("30.2.3", "5.5.2");
     ReqClient_disconnect := None;
     EventClient_disconnect := None |}.

(** The request client raises while disconnecting. *)
Definition request_disconnect_raises : Externals :=
  {| xair_connect := Ok ("XR18", "192.168.1.20", "10024");
     xair_exit := None;
     ReqClient_init := None;
     EventClient_init := None;
     get_version := Ok ("30.2.3", "5.5.2");
     ReqClient_disconnect := Some (Exn (OtherError "OSError") "Broken pipe" None);
     EventClient_disconnect := None |}.

(** A wait during which START becomes the program scene and OBS then closes. *)
Definition session (self : Observer) : M (Z -> bool) unit :=
  on_current_program_scene_changed self {| scene_name := "START" |} ;;
  on_exit_started self tt.

(** A wait that is interrupted from the keyboard. *)
Definition interrupted (self : Observer) : M (Z -> bool) unit :=
  raise (Exn KeyboardInterrupt EmptyString None).

(** ** Further definitions used by the properties of Part II *)

(** The world after calls [made] on the mixer have left it in state [x]. *)
Definition after_call {X} (x : X) (made : list MixerCall) (w : World X) : World X :=
  mkWorld x (calls w ++ made) (stdout w) (stop_event w)
          (registered w) (connected w) (disconnected w).



(** The reference a call addresses. *)
Definition call_ref (c : MixerCall) : Z :=
  match c with
  | ReadMute ref => ref
  | SetMute ref _ => ref
  end.

(** What a run of pairs may change: the mixer and the record of calls, the
    latter only by calls at the references of the pairs. *)
Definition only_mixer_calls {X} (ps : list (ActionKind * Z)) (w w' : World X) : Prop :=
  stdout w' = stdout w /\ stop_event w' = stop_event w
  /\ registered w' = registered w
  /\ connected w' = connected w /\ disconnected w' = disconnected w
  /\ exists new, calls w' = calls w ++ new
       /\ Forall (fun c => exists kind i, In (kind, i) ps /\ call_ref c = i - 1) new.

(** Every call of the mixer returns. *)
Definition always_returns (X : Type) `{MixerControl X} : Prop :=
  (forall i x, exists b, strip_mute_get i x = Ok b)
  /\ (forall i b x, exists x', strip_mute_set i b x = Ok x').

(** An example mixer with a fixed number of strips: a reference outside
    [0 .. length - 1] is refused with an [IndexError]. *)
Definition index_error : exn := Exn (OtherError "IndexError") "index out of range" None.

Definition strip_get (i : Z) (strips : list bool) : result bool :=
  if bool_decide (0 <= i) then
    match strips !! Z.to_nat i with
    | Some b => Ok b
    | None => Raise index_error
    end
  else Raise index_error.

Definition strip_put (i : Z) (b : bool) (strips : list bool) : result (list bool) :=
  if bool_decide (0 <= i < Z.of_nat (length strips)) then Ok (<[Z.to_nat i := b]> strips)
  else Raise index_error.

Global Instance StripMixer : MixerControl (list bool) := {
  strip_mute_get := strip_get;
  strip_mute_set := strip_put
}.

Definition strips0 (strips : list bool) : World (list bool) :=
  mkWorld strips [] [] false [] [] [].

(** The construction of the Observer does not go through: a table it reads
    is missing, or one of the calls it makes raises. *)
Definition construction_fails (ext : Externals) (config : Config) : Prop :=
  cfg_scene_mapping config = None \/ cfg_obs config = None
  \/ (exists e, ReqClient_init ext = Some e)
  \/ (exists e, EventClient_init ext = Some e)
  \/ (exists e, get_version ext = Raise e).

(** OBS answers both connections and then fails the version request. *)
Definition version_request_fails : Externals :=
  {| xair_connect := Ok ("XR18", "192.168.1.20", "10024");
     xair_exit := None;
     ReqClient_init := None;
     EventClient_init := None;
     get_version := Raise (Exn (OtherError "OBSSDKTimeoutError") "No response" None);
     ReqClient_disconnect := None;
     EventClient_disconnect := None |}.

(** The mixer does not answer. *)
Definition mixer_unreachable : Externals :=
  {| xair_connect := Raise (Exn (OtherError "XAirRemoteConnectionTimeoutError")
                                "Timeout" None);
     xair_exit := None;
     ReqClient_init := None;
     EventClient_init := None;
     get_version := Ok ("30.2.3", "5.5.2");
     ReqClient_disconnect := None;
     EventClient_disconnect := None |}.

Definition no_xair_table : Config :=
  {| cfg_xair := None;
     cfg_obs := Some [("host", "localhost")];
     cfg_scene_mapping := Some demo_mapping |}.

(** A wait on any mixer that is interrupted from the keyboard. *)
Definition interrupted_on {X} (self : Observer) : M X unit :=
  raise (Exn KeyboardInterrupt EmptyString None).

(** * Part II: lemmas and theorems *)

(** ** Laws of the monad and of the loops *)

Section Laws.
Context {X : Type}.

Lemma bind_assoc {A B C} (m : M X A) (k : A -> M X B) (h : B -> M X C) w :
  bind (bind m k) h w = bind m (fun a => bind (k a) h) w.
Proof. unfold bind. destruct (m w) as [[a|e] w']; reflexivity. Qed.

Lemma bind_ret_r (m : M X unit) w : bind m (fun _ => ret tt) w = m w.
Proof. unfold bind, ret. destruct (m w) as [[[]|e] w']; reflexivity. Qed.

Lemma bind_ext {A B} (m1 m2 : M X A) (k1 k2 : A -> M X B) w :
  m1 w = m2 w -> (forall a w', k1 a w' = k2 a w') -> bind m1 k1 w = bind m2 k2 w.
Proof.
  intros Hm Hk. unfold bind. rewrite Hm.
  destruct (m2 w) as [[a|e] w']; [apply Hk | reflexivity].
Qed.

Lemma for_cons {A} (x : A) (l : list A) (f : A -> M X unit) w :
  for_ (x :: l) f w = bind (f x) (fun _ => for_ l f) w.
Proof. reflexivity. Qed.

Lemma for_app {A} (l1 l2 : list A) (f : A -> M X unit) w :
  for_ (l1 ++ l2) f w = bind (for_ l1 f) (fun _ => for_ l2 f) w.
Proof.
  revert w. induction l1 as [|x l1 IH]; intros w; simpl.
  - reflexivity.
  - rewrite bind_assoc. apply bind_ext; [reflexivity | intros _ w'; apply IH].
Qed.

Lemma for_ext {A} (l : list A) (f g : A -> M X unit) :
  (forall x w, f x w = g x w) -> forall w, for_ l f w = for_ l g w.
Proof.
  intros Hfg. induction l as [|x l IH]; intros w; simpl.
  - reflexivity.
  - apply bind_ext; [apply Hfg | intros _ w'; apply IH].
Qed.

Lemma for_map {A B} (g : A -> B) (l : list A) (f : B -> M X unit) w :
  for_ (map g l) f w = for_ l (fun a => f (g a)) w.
Proof.
  revert w. induction l as [|x l IH]; intros w; simpl.
  - reflexivity.
  - apply bind_ext; [reflexivity | intros _ w'; apply IH].
Qed.

(** Computations that leave the connections alone compose. *)
Lemma keeps_handles_bind {A B} (m : M X A) (k : A -> M X B) :
  keeps_handles m -> (forall a, keeps_handles (k a)) -> keeps_handles (bind m k).
Proof.
  intros Hm Hk w. specialize (Hm w). unfold world_of, bind in *.
  destruct (m w) as [[a|e] w1]; simpl in Hm.
  - destruct (Hk a w1) as [Hc Hd]. unfold world_of in Hc, Hd.
    destruct Hm as [Hc1 Hd1]. rewrite Hc, Hd, Hc1, Hd1. split; reflexivity.
  - exact Hm.
Qed.

Lemma keeps_handles_for {A} (l : list A) (f : A -> M X unit) :
  (forall x, keeps_handles (f x)) -> keeps_handles (for_ l f).
Proof.
  intros Hf. induction l as [|x l IH]; simpl.
  - intros w. split; reflexivity.
  - apply keeps_handles_bind; [apply Hf | intros _; exact IH].
Qed.

End Laws.

(** ** The [actions] dictionary against the closed enumeration *)

Lemma kind_of_key_None (key : string) :
  key <> "mute" -> key <> "unmute" -> key <> "toggle" -> kind_of_key key = None.
Proof.
  intros Hm Hu Ht. unfold kind_of_key.
  repeat (destruct (decide _); [congruence|]). reflexivity.
Qed.

Lemma flatten_app (a b : ActionSet) : flatten (a ++ b) = flatten a ++ flatten b.
Proof. unfold flatten. apply flat_map_app. Qed.

Section Dispatch.
Context {X : Type} `{MixerControl X}.

Lemma actions_lookup (key : string) :
  actions (X:=X) !! key =
    match kind_of_key key with
    | Some kind => Some (perform kind)
    | None => None
    end.
Proof.
  unfold actions, kind_of_key.
  destruct (decide (key = "mute")) as [->|Hm]; [reflexivity|].
  rewrite lookup_insert_ne by congruence.
  destruct (decide (key = "unmute")) as [->|Hu]; [reflexivity|].
  rewrite lookup_insert_ne by congruence.
  destruct (decide (key = "toggle")) as [->|Ht]; [reflexivity|].
  rewrite lookup_singleton_ne by congruence. reflexivity.
Qed.

Lemma item_body_flat (key : string) (indices : list Z) w :
  item_body (key, indices) w = dispatch_pairs (flatten [(key, indices)]) w.
Proof.
  unfold item_body, dispatch_pairs, flatten. simpl. rewrite app_nil_r.
  rewrite actions_lookup.
  destruct (kind_of_key key) as [kind|] eqn:Hk.
  - rewrite bool_decide_eq_true_2 by eauto.
    rewrite for_map. apply for_ext. intros i w'.
    unfold getitem. rewrite actions_lookup, Hk. reflexivity.
  - rewrite bool_decide_eq_false_2 by (intros [? ?]; discriminate).
    reflexivity.
Qed.

Lemma dispatch_pairs_app (ps qs : list (ActionKind * Z)) w :
  dispatch_pairs (ps ++ qs) w =
    bind (dispatch_pairs ps) (fun _ => dispatch_pairs qs) w.
Proof. unfold dispatch_pairs. apply for_app. Qed.

Lemma items_flat (aset : ActionSet) w :
  for_ aset item_body w = dispatch_pairs (flatten aset) w.
Proof.
  revert w. induction aset as [|[key indices] aset IH]; intros w.
  - reflexivity.
  - rewrite for_cons.
    change ((key, indices) :: aset) with ([(key, indices)] ++ aset).
    rewrite flatten_app, dispatch_pairs_app.
    apply bind_ext; [apply item_body_flat | intros _ w'; apply IH].
Qed.

(** The handler, unfolded: print, then the flattened pairs in order. *)
Lemma scene_changed_flat (self : Observer) (scene : string) (aset : ActionSet) w :
  _mapping self !! scene = Some aset ->
  on_current_program_scene_changed self {| scene_name := scene |} w =
    bind (print ("Switched to scene " +:+ scene))
         (fun _ => dispatch_pairs (flatten aset)) w.
Proof.
  intros Hget. unfold on_current_program_scene_changed. cbv zeta.
  simpl scene_name. apply bind_ext; [reflexivity|]. intros _ w'.
  rewrite Hget. destruct aset as [|item aset]; [reflexivity|].
  apply items_flat.
Qed.

Lemma keeps_handles_print (line : string) : keeps_handles (print (X:=X) line).
Proof. intros w. split; reflexivity. Qed.

Lemma keeps_handles_perform kind ref : keeps_handles (perform kind ref).
Proof.
  intros w. unfold world_of.
  destruct kind; unfold perform, bind, mixer_strip_mute, mixer_strip_set_mute;
    simpl; repeat (destruct (strip_mute_get _ _) || destruct (strip_mute_set _ _ _));
    simpl; repeat (destruct (strip_mute_set _ _ _)); split; reflexivity.
Qed.

Lemma keeps_handles_scene_changed self data :
  keeps_handles (on_current_program_scene_changed self data).
Proof.
  destruct data as [scene].
  destruct (_mapping self !! scene) as [aset|] eqn:Hget.
  - intros w. unfold world_of. rewrite (scene_changed_flat self scene aset w Hget).
    apply (keeps_handles_bind (print _) (fun _ => dispatch_pairs (flatten aset)));
      [apply keeps_handles_print|].
    intros _. apply keeps_handles_for. intros [kind index].
    apply keeps_handles_perform.
  - intros w. unfold world_of, on_current_program_scene_changed, bind. simpl.
    rewrite Hget. split; reflexivity.
Qed.

Lemma keeps_handles_exit_started self data :
  keeps_handles (on_exit_started (X:=X) self data).
Proof. intros w. split; reflexivity. Qed.

End Dispatch.

(** ** Dispatch against the table of flags *)

Lemma perform_flags kind ref (w : World (Z -> bool)) :
  perform kind ref w = (Ok tt, after_pairs [(kind, ref + 1)] w).
Proof.
  unfold after_pairs. simpl. replace (ref + 1 - 1) with ref by lia.
  rewrite app_nil_r. destruct kind; try reflexivity.
  unfold perform, bind, mixer_strip_mute, mixer_strip_set_mute. simpl.
  unfold with_mixer, record_call. simpl. rewrite <- app_assoc. reflexivity.
Qed.

Lemma after_pairs_cons kind index ps w :
  after_pairs ps (after_pairs [(kind, index)] w) = after_pairs ((kind, index) :: ps) w.
Proof.
  unfold after_pairs. simpl. rewrite app_nil_r, <- app_assoc. reflexivity.
Qed.

Lemma dispatch_pairs_flags ps (w : World (Z -> bool)) :
  dispatch_pairs ps w = (Ok tt, after_pairs ps w).
Proof.
  revert w. induction ps as [|[kind index] ps IH]; intros w.
  - unfold after_pairs. simpl. rewrite app_nil_r. destruct w; reflexivity.
  - unfold dispatch_pairs. rewrite for_cons. unfold bind.
    rewrite perform_flags. replace (index - 1 + 1) with index by lia.
    fold (dispatch_pairs (X:=Z -> bool) ps). rewrite IH, after_pairs_cons.
    reflexivity.
Qed.

Lemma apply_pairs_app ps qs flags :
  apply_pairs (ps ++ qs) flags = apply_pairs qs (apply_pairs ps flags).
Proof.
  revert flags. induction ps as [|[kind index] ps IH]; intros flags; simpl;
    [reflexivity | apply IH].
Qed.

Lemma apply_kind_other kind ref r flags :
  r <> ref -> apply_kind kind ref flags r = flags r.
Proof.
  intros Hne. destruct kind; simpl; unfold flag_set;
    rewrite bool_decide_eq_false_2 by assumption; reflexivity.
Qed.

Lemma apply_kind_same kind ref flags :
  apply_kind kind ref flags ref =
    match kind with Mute => true | Unmute => false | Toggle => negb (flags ref) end.
Proof.
  destruct kind; simpl; unfold flag_set;
    rewrite bool_decide_eq_true_2 by reflexivity; reflexivity.
Qed.

(** Pairs that never name index [i] leave the flag of reference [i - 1]. *)
Lemma apply_pairs_frame ps i flags :
  (forall kind j, In (kind, j) ps -> j <> i) ->
  apply_pairs ps flags (i - 1) = flags (i - 1).
Proof.
  revert flags. induction ps as [|[kind index] ps IH]; intros flags Hps; simpl.
  - reflexivity.
  - rewrite IH by (intros k j Hin; apply (Hps k j); right; exact Hin).
    apply apply_kind_other.
    assert (index <> i) by (apply (Hps kind); left; reflexivity). lia.
Qed.

Lemma expected_calls_In ps kind i flags :
  In (kind, i) ps -> exists b, In (SetMute (i - 1) b) (expected_calls ps flags).
Proof.
  revert flags. induction ps as [|[k j] ps IH]; intros flags Hin; simpl in *.
  - contradiction.
  - destruct Hin as [Heq|Hin].
    + inversion Heq; subst k j.
      destruct kind; eexists; apply in_or_app; left; simpl; eauto.
    + destruct (IH (apply_kind k (j - 1) flags) Hin) as [b Hb].
      exists b. apply in_or_app. right. exact Hb.
Qed.

Lemma scene_changed_flags (self : Observer) scene aset (w : World (Z -> bool)) :
  _mapping self !! scene = Some aset ->
  on_current_program_scene_changed self {| scene_name := scene |} w =
    (Ok tt, after_pairs (flatten aset)
              (world_of (print ("Switched to scene " +:+ scene)) w)).
Proof.
  intros Hget. rewrite (scene_changed_flat self scene aset w Hget).
  unfold bind. simpl. apply dispatch_pairs_flags.
Qed.

(** ** Scene change dispatch: the claims *)

(** C1. A pair [(kind, i)] of a mapped scene's ActionSet is executed at
    ChannelRef [i - 1], after the pairs declared before it and before those
    declared after it.  Mute calls set-mute(true) on the capability at that
    reference and Unmute set-mute(false): the mixer becomes what the call
    answers, or the call's exception is raised.  Toggle reads the mute state
    at that reference at that moment and calls set-mute with the negation
    of what the read answered; when the read raises, nothing is set. *)
Theorem dispatch_pair_semantics
    (self : Observer) (scene key : string) (kind : ActionKind)
    (pre post : ActionSet) (ipre ipost : list Z) (i : Z)
    (Hget : _mapping self !! scene = Some (pre ++ (key, ipre ++ i :: ipost) :: post))
    (Hkind : kind_of_key key = Some kind) :
  forall (X : Type) (HX : MixerControl X) (w : World X),
    on_current_program_scene_changed self {| scene_name := scene |} w =
      (print ("Switched to scene " +:+ scene) ;;
       dispatch_pairs (flatten pre ++ map (pair kind) ipre) ;;
       perform kind (i - 1) ;;
       dispatch_pairs (map (pair kind) ipost ++ flatten post)) w
    /\ (kind = Mute ->
        perform kind (i - 1) w =
          match strip_mute_set (i - 1) true (mixer w) with
          | Ok x' => (Ok tt, after_call x' [SetMute (i - 1) true] w)
          | Raise e => (Raise e, after_call (mixer w) [SetMute (i - 1) true] w)
          end)
    /\ (kind = Unmute ->
        perform kind (i - 1) w =
          match strip_mute_set (i - 1) false (mixer w) with
          | Ok x' => (Ok tt, after_call x' [SetMute (i - 1) false] w)
          | Raise e => (Raise e, after_call (mixer w) [SetMute (i - 1) false] w)
          end)
    /\ (kind = Toggle ->
        perform kind (i - 1) w =
          match strip_mute_get (i - 1) (mixer w) with
          | Ok state =>
              let made := [ReadMute (i - 1); SetMute (i - 1) (negb state)] in
              match strip_mute_set (i - 1) (negb state) (mixer w) with
              | Ok x' => (Ok tt, after_call x' made w)
              | Raise e => (Raise e, after_call (mixer w) made w)
              end
          | Raise e => (Raise e, after_call (mixer w) [ReadMute (i - 1)] w)
          end).
Proof.
  intros X HX w. split; [| split; [| split]].
  - rewrite (scene_changed_flat self scene _ w Hget).
    apply bind_ext; [reflexivity|]. intros _ w1.
    rewrite flatten_app.
    change ((key, ipre ++ i :: ipost) :: post)
      with ([(key, ipre ++ i :: ipost)] ++ post).
    rewrite flatten_app. unfold flatten at 2. simpl flat_map.
    rewrite Hkind, app_nil_r, map_app. simpl map.
    replace (flatten pre ++ (map (pair kind) ipre ++ (kind, i) :: map (pair kind) ipost)
               ++ flatten post)
      with ((flatten pre ++ map (pair kind) ipre)
              ++ [(kind, i)] ++ (map (pair kind) ipost ++ flatten post))
      by (rewrite <- !app_assoc; reflexivity).
    rewrite dispatch_pairs_app.
    apply bind_ext; [reflexivity|]. intros _ w2.
    rewrite dispatch_pairs_app.
    apply bind_ext; [| reflexivity].
    unfold dispatch_pairs. rewrite for_cons. simpl for_. apply bind_ret_r.
  - intros ->. unfold perform, mixer_strip_set_mute, after_call. simpl.
    destruct (strip_mute_set _ _ _); reflexivity.
  - intros ->. unfold perform, mixer_strip_set_mute, after_call. simpl.
    destruct (strip_mute_set _ _ _); reflexivity.
  - intros ->.
    unfold perform, bind, mixer_strip_mute, mixer_strip_set_mute, after_call,
      with_mixer, record_call.
    destruct (strip_mute_get _ _) as [state|e]; simpl; [|reflexivity].
    destruct (strip_mute_set _ _ _); simpl; rewrite <- app_assoc; reflexivity.
Qed.

(** C1, at a concrete input: scene LIVE toggles index 2 while reference 1
    is muted; reference 1 is read and then set to unmuted. *)
Lemma dispatch_pair_semantics_witness :
  let w0 := world0 (flag_set 1 true all_unmuted) in
  on_current_program_scene_changed demo {| scene_name := "LIVE" |} w0 =
    (print "Switched to scene LIVE" ;; perform Toggle (2 - 1)) w0
  /\ perform Toggle (2 - 1) (world_of (print "Switched to scene LIVE") w0) =
       (Ok tt,
        mkWorld (flag_set 1 false (flag_set 1 true all_unmuted))
                [ReadMute 1; SetMute 1 false]
                ["Switched to scene LIVE"] false [] [] []).
Proof.
  intros w0. split.
  - destruct (dispatch_pair_semantics demo "LIVE" "toggle" Toggle [] [] [] [] 2
                eq_refl eq_refl (Z -> bool) FlagMixer w0) as (Hrun & _).
    rewrite Hrun. reflexivity.
  - destruct (dispatch_pair_semantics demo "LIVE" "toggle" Toggle [] [] [] [] 2
                eq_refl eq_refl (Z -> bool) FlagMixer
                (world_of (print "Switched to scene LIVE") w0))
      as (_ & _ & _ & Htoggle).
    exact (Htoggle eq_refl).
Defined.

(** C2. For a mapped scene the handler is the print followed by the
    declared-order flattening of the ActionSet: keys in declared order,
    each key's indices in declared order, and nothing for a key other than
    mute, unmute and toggle.  Against the table of flags the calls made are
    exactly those of the flattening; for [{mute: [1, 3]}] they are
    set-mute(true) on references 0 and 2, and no flag elsewhere changes. *)
Theorem scene_changed_calls_flattening
    (self : Observer) (scene : string) (aset : ActionSet)
    (Hget : _mapping self !! scene = Some aset) :
  (forall (X : Type) (HX : MixerControl X) (w : World X),
     on_current_program_scene_changed self {| scene_name := scene |} w =
       (print ("Switched to scene " +:+ scene) ;;
        dispatch_pairs (flatten aset)) w)
  /\ (forall w : World (Z -> bool),
        let m := on_current_program_scene_changed self {| scene_name := scene |} in
        result_of m w = Ok tt
        /\ calls (world_of m w) = calls w ++ expected_calls (flatten aset) (mixer w))
  /\ (forall (pre post : ActionSet) (key : string) (indices : list Z),
        aset = pre ++ (key, indices) :: post ->
        key <> "mute" -> key <> "unmute" -> key <> "toggle" ->
        flatten aset = flatten (pre ++ post))
  /\ (aset = [("mute", [1; 3])] ->
      forall w : World (Z -> bool),
        let m := on_current_program_scene_changed self {| scene_name := scene |} in
        calls (world_of m w) = calls w ++ [SetMute 0 true; SetMute 2 true]
        /\ forall ref, ref <> 0 -> ref <> 2 -> mixer (world_of m w) ref = mixer w ref).
Proof.
  split; [| split; [| split]].
  - intros X HX w. apply scene_changed_flat. exact Hget.
  - intros w m. unfold m, result_of, world_of.
    rewrite (scene_changed_flags self scene aset w Hget). split; reflexivity.
  - intros pre post key indices -> Hm Hu Ht.
    change ((key, indices) :: post) with ([(key, indices)] ++ post).
    rewrite !flatten_app. unfold flatten at 2. simpl.
    rewrite (kind_of_key_None key Hm Hu Ht). reflexivity.
  - intros -> w m. unfold m, world_of.
    rewrite (scene_changed_flags self scene _ w Hget). split; [reflexivity|].
    intros ref H0 H2. simpl. unfold flag_set.
    rewrite !bool_decide_eq_false_2 by assumption. reflexivity.
Qed.

(** C2, at a concrete input: scene START of the example configuration. *)
Lemma scene_changed_calls_flattening_witness :
  calls (world_of (on_current_program_scene_changed demo {| scene_name := "START" |})
                  (world0 all_unmuted))
  = [SetMute 0 true; SetMute 2 true].
Proof.
  destruct (scene_changed_calls_flattening demo "START" [("mute", [1; 3])] eq_refl)
    as (_ & _ & _ & Hexample).
  exact (proj1 (Hexample eq_refl (world0 all_unmuted))).
Defined.

(** C3. For a scene name absent from the mapping the handler returns
    normally, whatever the mixer, and makes no call on it: the record of
    calls and the mixer are as before. *)
Theorem unmapped_scene_no_effect
    (self : Observer) (scene : string)
    (Habsent : _mapping self !! scene = None) :
  forall (X : Type) (HX : MixerControl X) (w : World X),
    let m := on_current_program_scene_changed self {| scene_name := scene |} in
    result_of m w = Ok tt
    /\ calls (world_of m w) = calls w
    /\ mixer (world_of m w) = mixer w.
Proof.
  intros X HX w m. unfold m, result_of, world_of,
    on_current_program_scene_changed, bind. simpl.
  rewrite Habsent. repeat split.
Qed.

Lemma unmapped_scene_no_effect_witness :
  let m := on_current_program_scene_changed demo {| scene_name := "Intermission" |} in
  result_of m (world0 all_unmuted) = Ok tt
  /\ calls (world_of m (world0 all_unmuted)) = []
  /\ mixer (world_of m (world0 all_unmuted)) = all_unmuted.
Proof.
  exact (unmapped_scene_no_effect demo "Intermission" eq_refl
           (Z -> bool) FlagMixer (world0 all_unmuted)).
Defined.

(** C10. A scene mapped to the empty ActionSet is handled exactly as if its
    name were not in the mapping at all: same outcome, same world, and in
    particular no call on the mixer. *)
Theorem empty_action_set_as_unmapped
    (self : Observer) (scene : string)
    (Hempty : _mapping self !! scene = Some []) :
  forall (X : Type) (HX : MixerControl X) (w : World X),
    let data := {| scene_name := scene |} in
    on_current_program_scene_changed self data w =
      on_current_program_scene_changed
        {| _mapping := delete scene (_mapping self) |} data w
    /\ result_of (on_current_program_scene_changed self data) w = Ok tt
    /\ calls (world_of (on_current_program_scene_changed self data) w) = calls w
    /\ mixer (world_of (on_current_program_scene_changed self data) w) = mixer w.
Proof.
  intros X HX w data. unfold data, result_of, world_of,
    on_current_program_scene_changed, bind. simpl.
  rewrite Hempty, lookup_delete_eq. repeat split.
Qed.

Lemma empty_action_set_as_unmapped_witness :
  let data := {| scene_name := "END" |} in
  on_current_program_scene_changed demo data (world0 all_unmuted) =
    on_current_program_scene_changed
      {| _mapping := delete "END" demo_mapping |} data (world0 all_unmuted)
  /\ calls (world_of (on_current_program_scene_changed demo data)
                     (world0 all_unmuted)) = [].
Proof.
  destruct (empty_action_set_as_unmapped demo "END" eq_refl
              (Z -> bool) FlagMixer (world0 all_unmuted)) as (Hsame & _ & Hcalls & _).
  split; [exact Hsame | exact Hcalls].
Defined.

(** C9. A declared index of 0 or below under a recognised key is neither
    rejected nor skipped: whatever the mixer, the handler runs the pairs of
    the flattening, each at [index - 1], with no test on the index.  Against
    the table of flags, which accepts every reference, the handler returns
    normally, its calls are those of the flattening, and among them is a
    set-mute at reference [i - 1], which is negative; for declared index 0
    under mute the call is set-mute(true) at reference -1. *)
Theorem nonpositive_index_passed_through
    (self : Observer) (scene : string) (aset : ActionSet)
    (kind : ActionKind) (i : Z)
    (Hget : _mapping self !! scene = Some aset)
    (Hin : In (kind, i) (flatten aset))
    (Hi : i <= 0) :
  (forall (X : Type) (HX : MixerControl X) (w : World X),
     on_current_program_scene_changed self {| scene_name := scene |} w =
       (print ("Switched to scene " +:+ scene) ;;
        dispatch_pairs (flatten aset)) w)
  /\ forall w : World (Z -> bool),
    let m := on_current_program_scene_changed self {| scene_name := scene |} in
    result_of m w = Ok tt
    /\ calls (world_of m w) = calls w ++ expected_calls (flatten aset) (mixer w)
    /\ (exists b, In (SetMute (i - 1) b) (expected_calls (flatten aset) (mixer w)))
    /\ i - 1 < 0
    /\ (aset = [("mute", [0])] -> calls (world_of m w) = calls w ++ [SetMute (-1) true]).
Proof.
  split; [intros X HX w; apply scene_changed_flat; exact Hget|].
  intros w m. unfold m, result_of, world_of.
  rewrite (scene_changed_flags self scene aset w Hget). simpl.
  split; [reflexivity|]. split; [reflexivity|].
  split; [apply (expected_calls_In _ kind); exact Hin|].
  split; [lia|]. intros ->. reflexivity.
Qed.

Lemma nonpositive_index_passed_through_witness :
  calls (world_of (on_current_program_scene_changed zero_index
                     {| scene_name := "PAUSE" |}) (world0 all_unmuted))
  = [SetMute (-1) true].
Proof.
  destruct (nonpositive_index_passed_through zero_index "PAUSE" [("mute", [0])]
              Mute 0 eq_refl (or_introl eq_refl) (Z.le_refl 0)) as [_ Hflags].
  destruct (Hflags (world0 all_unmuted)) as (_ & _ & _ & _ & Hexample).
  exact (Hexample eq_refl).
Defined.

(** C4. Against the table of flags, the flag of a reference after the
    handler is the one left by the last pair, in declared order, that names
    it: true for Mute, false for Unmute, and for Toggle the negation of the
    flag as the pairs before it left it.  For [{mute: [1], unmute: [1]}]
    the calls on reference 0 end with set-mute(false) and the flag ends
    false; with the two keys declared the other way round they end with
    set-mute(true) and the flag ends true. *)
Theorem last_action_wins
    (self : Observer) (scene : string) (aset : ActionSet)
    (Hget : _mapping self !! scene = Some aset) :
  (forall (pre post : list (ActionKind * Z)) (kind : ActionKind) (i : Z),
     flatten aset = pre ++ (kind, i) :: post ->
     (forall k j, In (k, j) post -> j <> i) ->
     forall w : World (Z -> bool),
       mixer (world_of (on_current_program_scene_changed self
                          {| scene_name := scene |}) w) (i - 1)
       = match kind with
         | Mute => true
         | Unmute => false
         | Toggle => negb (apply_pairs pre (mixer w) (i - 1))
         end)
  /\ (aset = [("mute", [1]); ("unmute", [1])] ->
      forall w : World (Z -> bool),
        let m := on_current_program_scene_changed self {| scene_name := scene |} in
        calls (world_of m w) = calls w ++ [SetMute 0 true; SetMute 0 false]
        /\ mixer (world_of m w) 0 = false)
  /\ (aset = [("unmute", [1]); ("mute", [1])] ->
      forall w : World (Z -> bool),
        let m := on_current_program_scene_changed self {| scene_name := scene |} in
        calls (world_of m w) = calls w ++ [SetMute 0 false; SetMute 0 true]
        /\ mixer (world_of m w) 0 = true).
Proof.
  split; [| split].
  - intros pre post kind i Hsplit Hlast w. unfold world_of.
    rewrite (scene_changed_flags self scene aset w Hget). simpl.
    rewrite Hsplit, apply_pairs_app. simpl.
    rewrite (apply_pairs_frame post i _ Hlast).
    apply apply_kind_same.
  - intros -> w m. unfold m, world_of.
    rewrite (scene_changed_flags self scene _ w Hget). split; reflexivity.
  - intros -> w m. unfold m, world_of.
    rewrite (scene_changed_flags self scene _ w Hget). split; reflexivity.
Qed.

Lemma last_action_wins_witness :
  (let m := on_current_program_scene_changed demo {| scene_name := "BRB" |} in
   calls (world_of m (world0 all_unmuted)) = [SetMute 0 true; SetMute 0 false]
   /\ mixer (world_of m (world0 all_unmuted)) 0 = false)
  /\ (let m := on_current_program_scene_changed demo {| scene_name := "BACK" |} in
      calls (world_of m (world0 all_unmuted)) = [SetMute 0 false; SetMute 0 true]
      /\ mixer (world_of m (world0 all_unmuted)) 0 = true).
Proof.
  split.
  - destruct (last_action_wins demo "BRB" _ eq_refl) as (_ & Hfwd & _).
    exact (Hfwd eq_refl (world0 all_unmuted)).
  - destruct (last_action_wins demo "BACK" _ eq_refl) as (_ & _ & Hrev).
    exact (Hrev eq_refl (world0 all_unmuted)).
Defined.

(** ** The exit handler *)

(** C7 as amended.  Each invocation of the exit handler returns and leaves
    the stop event set; a second invocation changes neither the stop event
    nor anything else of the world except the output, to which it adds the
    line "OBS closing" once more. *)
Theorem exit_started_sets_stop_event
    (X : Type) (self : Observer) (w : World X) :
  let h := on_exit_started self tt in
  let w1 := world_of h w in
  result_of h w = Ok tt
  /\ stop_event w1 = true
  /\ result_of h w1 = Ok tt
  /\ world_of h w1 =
       mkWorld (mixer w1) (calls w1) (stdout w1 ++ ["OBS closing"]) (stop_event w1)
               (registered w1) (connected w1) (disconnected w1)
  /\ stdout w1 = stdout w ++ ["OBS closing"].
Proof. repeat split. Qed.

(** C7 as stated fails: the second invocation is not without effect, the
    world after it differs from the world after the first. *)
Lemma exit_started_twice_not_noop :
  let h := on_exit_started demo tt in
  world_of h (world_of h (world0 all_unmuted)) <> world_of h (world0 all_unmuted).
Proof.
  intros h Heq. apply (f_equal stdout) in Heq. discriminate Heq.
Qed.

(** ** Configuration lookup: the claims *)

Lemma find_first {A} (f : A -> bool) (l : list A) (p : A) :
  find f l = Some p <->
  exists n : nat, l !! n = Some p /\ f p = true
    /\ forall (m : nat) (q : A), (m < n)%nat -> l !! m = Some q -> f q = false.
Proof.
  induction l as [|x l IH]; simpl.
  - split; [discriminate | intros (n & Hn & _); destruct n; discriminate].
  - destruct (f x) eqn:Hfx.
    + split.
      * intros [= <-]. exists 0%nat. repeat split; [assumption | intros; lia].
      * intros (n & Hn & Hp & Hbefore). destruct n as [|n].
        -- simpl in Hn. congruence.
        -- specialize (Hbefore 0%nat x ltac:(lia) eq_refl). congruence.
    + rewrite IH. split.
      * intros (n & Hn & Hp & Hbefore). exists (S n). repeat split; try assumption.
        intros [|m] q Hm Hq; simpl in Hq; [congruence|].
        apply (Hbefore m); [lia | assumption].
      * intros (n & Hn & Hp & Hbefore). destruct n as [|n].
        -- simpl in Hn. congruence.
        -- exists n. repeat split; try assumption.
           intros m q Hm Hq. apply (Hbefore (S m)); [lia | assumption].
Qed.

Section LoadConfigFacts.
Context {Path File Config : Type}.
Variable Path_ : string -> Path.
Variable truediv : Path -> string -> Path.
Variables cwd file_parent home : Path.
Variable is_file : Path -> bool.
Variable str : Path -> string.
Variable open_rb : Path -> result File.
Variable tomllib_load : File -> result Config.

Local Abbreviation candidates :=
  (ConfigFile.candidates Path_ truediv cwd file_parent home).
Local Abbreviation get_filepath :=
  (ConfigFile.get_filepath Path_ truediv cwd file_parent home is_file).
Local Abbreviation load_config :=
  (ConfigFile.load_config Path_ truediv cwd file_parent home is_file str
     open_rb tomllib_load).

(** C5. The candidates are four, in this order: the path as given, under
    the working directory, under the directory of the program, and under
    [.config/xair-obs] of the home directory.  [get_filepath] answers the
    first of them that is a file (the third when only the third is), and
    [load_config] opens and parses that file and no other: its outcome is
    the outcome of reading the resolved path, so it returns the parse of
    the first candidate that is a file.  When none is a file,
    [load_config] raises [FileNotFoundError]. *)
Theorem get_filepath_first_candidate (config : string) :
  candidates config =
    [ Path_ config;
      truediv cwd config;
      truediv file_parent config;
      truediv (truediv (truediv home ".config") "xair-obs") config ]
  /\ (forall p : Path,
        get_filepath config = Some p <->
        exists n : nat,
          candidates config !! n = Some p /\ is_file p = true
          /\ forall (m : nat) (q : Path),
               (m < n)%nat -> candidates config !! m = Some q -> is_file q = false)
  /\ (is_file (Path_ config) = false ->
      is_file (truediv cwd config) = false ->
      is_file (truediv file_parent config) = true ->
      get_filepath config = Some (truediv file_parent config))
  /\ ((forall p, In p (candidates config) -> is_file p = false) <->
      get_filepath config = None)
  /\ (get_filepath config = None ->
      load_config config =
        Raise (Exn FileNotFoundError
                 ("Config file " +:+ config +:+ " not found") None))
  /\ (forall p : Path,
        get_filepath config = Some p ->
        load_config config =
          try_except (result_bind (open_rb p) tomllib_load) is_TOMLDecodeError
            (fun e => Raise (Exn TOMLDecodeError
                               ("Error decoding config file " +:+ str p) (Some e))))
  /\ (forall (p : Path) (f : File) (parsed : Config),
        get_filepath config = Some p ->
        open_rb p = Ok f -> tomllib_load f = Ok parsed ->
        load_config config = Ok parsed)
  /\ (is_file (Path_ config) = false ->
      is_file (truediv cwd config) = false ->
      is_file (truediv file_parent config) = true ->
      forall (f : File) (parsed : Config),
        open_rb (truediv file_parent config) = Ok f -> tomllib_load f = Ok parsed ->
        load_config config = Ok parsed).
Proof.
  assert (Hthird : is_file (Path_ config) = false ->
            is_file (truediv cwd config) = false ->
            is_file (truediv file_parent config) = true ->
            get_filepath config = Some (truediv file_parent config)).
  { intros H1 H2 H3. unfold ConfigFile.get_filepath. simpl.
    rewrite H1, H2, H3. reflexivity. }
  assert (Hread : forall (p : Path) (f : File) (parsed : Config),
            get_filepath config = Some p ->
            open_rb p = Ok f -> tomllib_load f = Ok parsed ->
            load_config config = Ok parsed).
  { intros p f parsed Hget Hopen Hparse. unfold ConfigFile.load_config.
    rewrite Hget. unfold try_except, result_bind. rewrite Hopen, Hparse.
    reflexivity. }
  split; [reflexivity|]. split; [intros p; apply find_first|].
  split; [exact Hthird|]. split; [|split; [|split; [|split]]].
  - unfold ConfigFile.get_filepath. split.
    + intros Hnone. simpl. rewrite !Hnone by (simpl; tauto). reflexivity.
    + intros Hfind p Hin. apply (find_none _ _ Hfind). exact Hin.
  - intros Hget. unfold ConfigFile.load_config. rewrite Hget. reflexivity.
  - intros p Hget. unfold ConfigFile.load_config. rewrite Hget. reflexivity.
  - exact Hread.
  - intros H1 H2 H3 f parsed Hopen Hparse.
    apply (Hread _ f parsed (Hthird H1 H2 H3) Hopen Hparse).
Qed.


End LoadConfigFacts.

(** C5, at a concrete input: of the candidates of [config.toml] only the
    third is a file of the example; it is the one resolved and parsed. *)
Lemma get_filepath_first_candidate_witness :
  ToyFS.get_filepath "config.toml" = Some "/opt/xair-obs/config.toml"
  /\ ToyFS.load_config "config.toml" = Ok "[obs]".
Proof.
  destruct (get_filepath_first_candidate
              id ToyFS.join "/srv/stream" "/opt/xair-obs" "/home/op"
              ToyFS.is_file id ToyFS.open_rb ToyFS.load "config.toml")
    as (_ & _ & Hthird & _ & _ & _ & _ & Hparsed).
  split.
  - exact (Hthird eq_refl eq_refl eq_refl).
  - exact (Hparsed eq_refl eq_refl eq_refl "[obs]" "[obs]" eq_refl eq_refl).
Defined.



(** Only the third candidate of [config.toml] is a file of the example. *)
Example toy_third_candidate :
  ToyFS.get_filepath "config.toml" = Some "/opt/xair-obs/config.toml"
  /\ ToyFS.load_config "config.toml" = Ok "[obs]"
  /\ ToyFS.load_config "nothing.toml" =
       Raise (Exn FileNotFoundError "Config file nothing.toml not found" None).
Proof. repeat split. Qed.

(** ** Lifetime of the connections *)

Ltac run_main :=
  unfold world_of, result_of, main, with_, xair_api_connect,
    Observer__init__, Observer__enter__, Observer__exit__, callback_register,
    new_Event, print, disconnect, external, subscript, lift;
  simpl; unfold bind, raise, ret; simpl.

Ltac step_main wait Hwait :=
  match goal with
  | |- context [wait ?s ?W] =>
      let Hc := fresh "Hc" in
      let Hd := fresh "Hd" in
      destruct (Hwait s W) as [Hc Hd]; unfold world_of in Hc, Hd;
      destruct (wait s W) as [[[]|?] ?]; simpl in Hc, Hd; simpl
  | |- context [cfg_xair ?config] => is_var config; destruct config; simpl
  | |- context [match ?x with _ => _ end] => is_var x; destruct x; simpl
  end.

Section LifetimeFacts.
Context {X : Type} `{MixerControl X}.

(** On every path through [main] a connection is released at most once,
    and only if it was opened. *)
Lemma main_handles_at_most_once
    (ext : Externals) (loaded : result Config) (wait : Observer -> M X unit)
    (Hwait : forall self, keeps_handles (wait self)) (w : World X) (c : Client) :
  let w' := world_of (main ext loaded wait) w in
  (count_occ Client_eq_dec (disconnected w') c
     <= count_occ Client_eq_dec (disconnected w) c + 1)%nat
  /\ (count_occ Client_eq_dec (disconnected w') c
        + count_occ Client_eq_dec (connected w) c
      <= count_occ Client_eq_dec (disconnected w) c
        + count_occ Client_eq_dec (connected w') c)%nat.
Proof.
  intros w'. subst w'.
  destruct ext as [xc xe ri ei gv rd ed]. run_main.
  repeat step_main wait Hwait;
    unfold released, opened; simpl;
    rewrite ?Hc, ?Hd; simpl; rewrite ?count_occ_app; simpl;
    destruct c; simpl; lia.
Qed.

(** Once the start-up has gone through and with releases that return,
    [main] opens and releases the three connections once each, and ends as
    the wait ended. *)
Lemma main_handles_exactly_once
    (ext : Externals) (config : Config) (wait : Observer -> M X unit)
    (Hwait : forall self, keeps_handles (wait self))
    (Hstart : startup_returns ext config) (Hrel : releases_return ext) :
  forall w : World X,
    let w' := world_of (main ext (Ok config) wait) w in
    connected w' = connected w ++ [XAirRemote; ReqClient; EventClient]
    /\ disconnected w' = disconnected w ++ [ReqClient; EventClient; XAirRemote]
    /\ ((forall self w0, result_of (wait self) w0 = Ok tt) ->
        result_of (main ext (Ok config) wait) w = Ok tt)
    /\ (forall e, (forall self w0, result_of (wait self) w0 = Raise e) ->
        result_of (main ext (Ok config) wait) w = Raise e).
Proof.
  intros w w'. subst w'.
  destruct ext as [xc xe ri ei gv rd ed], config as [cx co cm].
  unfold startup_returns, releases_return in *. simpl in *.
  destruct Hstart as ([kw Hkw] & [ob Hob] & [mp Hmp] & [[[kind ip] port] Hxc]
                      & Hri & Hei & [resp Hgv]).
  destruct Hrel as (Hrd & Hed & Hxe). subst.
  run_main.
  match goal with
  | |- context [wait ?s ?W] =>
      destruct (Hwait s W) as [Hc Hd]; unfold world_of in Hc, Hd;
      pose proof (fun Hr : forall self w0, result_of (wait self) w0 = Ok tt => Hr s W)
        as Hok;
      pose proof (fun e (Hr : forall self w0, result_of (wait self) w0 = Raise e) =>
                    Hr s W) as Hraise;
      unfold result_of in Hok, Hraise;
      destruct (wait s W) as [[[]|e0] w2]; simpl in Hc, Hd, Hok, Hraise; simpl
  end.
  - rewrite Hc, Hd, <- !app_assoc. repeat split.
    intros e He. specialize (Hraise e He). discriminate Hraise.
  - rewrite Hc, Hd, <- !app_assoc. repeat split.
    + intros Hr. specialize (Hok Hr). discriminate Hok.
    + intros e He. specialize (Hraise e He). exact Hraise.
Qed.

(** Once connected, the mixer is released on every path through [main],
    provided the exit of its context manager returns. *)
Lemma main_mixer_released_once
    (ext : Externals) (config : Config) (wait : Observer -> M X unit)
    (Hwait : forall self, keeps_handles (wait self)) (w : World X) :
  is_Some (cfg_xair config) -> (exists info, xair_connect ext = Ok info) ->
  xair_exit ext = None ->
  count_occ Client_eq_dec
    (disconnected (world_of (main ext (Ok config) wait) w)) XAirRemote
  = S (count_occ Client_eq_dec (disconnected w) XAirRemote).
Proof.
  destruct ext as [xc xe ri ei gv rd ed], config as [cx co cm]. simpl.
  intros [kw ->] [[[kind ip] port] ->] ->.
  run_main.
  repeat step_main wait Hwait;
    unfold released, opened; simpl;
    rewrite ?Hc, ?Hd; simpl; rewrite ?count_occ_app; simpl; lia.
Qed.

(** Once the Observer is constructed, each OBS client is released when the
    disconnect calls up to its own return, whatever the exit of the mixer
    does. *)
Lemma main_obs_clients_released
    (ext : Externals) (config : Config) (wait : Observer -> M X unit)
    (Hwait : forall self, keeps_handles (wait self)) (w : World X) :
  startup_returns ext config -> ReqClient_disconnect ext = None ->
  count_occ Client_eq_dec
    (disconnected (world_of (main ext (Ok config) wait) w)) ReqClient
  = S (count_occ Client_eq_dec (disconnected w) ReqClient)
  /\ (EventClient_disconnect ext = None ->
      count_occ Client_eq_dec
        (disconnected (world_of (main ext (Ok config) wait) w)) EventClient
      = S (count_occ Client_eq_dec (disconnected w) EventClient)).
Proof.
  destruct ext as [xc xe ri ei gv rd ed], config as [cx co cm].
  unfold startup_returns. simpl.
  intros ([kw Hkw] & [ob Hob] & [mp Hmp] & [[[kind ip] port] Hxc]
          & Hri & Hei & [resp Hgv]) Hrd.
  subst. run_main.
  repeat step_main wait Hwait;
    unfold released, opened; simpl;
    rewrite ?Hc, ?Hd; simpl; rewrite ?count_occ_app; simpl;
    (split; [lia | intros Hed; try discriminate Hed; lia]).
Qed.

End LifetimeFacts.

Lemma interrupted_keeps_handles self : keeps_handles (interrupted self).
Proof. intros w. split; reflexivity. Defined.

Lemma session_returns self w0 : result_of (session self) w0 = Ok tt.
Proof.
  unfold result_of, session, bind.
  destruct (_mapping self !! "START") as [aset|] eqn:Hget.
  - rewrite (scene_changed_flags self "START" aset w0 Hget). reflexivity.
  - unfold on_current_program_scene_changed, bind. simpl. rewrite Hget. reflexivity.
Qed.

Lemma session_keeps_handles self : keeps_handles (session self).
Proof.
  apply keeps_handles_bind.
  - apply keeps_handles_scene_changed.
  - intros _. apply keeps_handles_exit_started.
Qed.

(** C8 as amended.  For a wait that itself opens and releases nothing:
    on every path through [main], whatever raises, no connection is released
    twice and none is released that was not opened.  The mixer, once it has
    connected, is released exactly once on every exit, whatever happens to
    the Observer, provided the exit of its context manager returns.  Once
    the Observer has been constructed (the tables are there and every call
    made while connecting returns), every exit of the scope, normal or by an
    exception of the wait, releases the request client exactly once if its
    disconnect returns, and the event client exactly once if both
    disconnects return; with all three release calls returning, the three
    connections are released once each, the mixer last, and [main] ends as
    the wait ended. *)
Theorem connections_released_once
    (X : Type) (HX : MixerControl X)
    (ext : Externals) (config : Config) (wait : Observer -> M X unit)
    (Hwait : forall self, keeps_handles (wait self)) :
  forall w : World X,
    let w' := world_of (main ext (Ok config) wait) w in
    (forall c : Client,
       (count_occ Client_eq_dec (disconnected w') c
          <= count_occ Client_eq_dec (disconnected w) c + 1)%nat
       /\ (count_occ Client_eq_dec (disconnected w') c
             + count_occ Client_eq_dec (connected w) c
           <= count_occ Client_eq_dec (disconnected w) c
             + count_occ Client_eq_dec (connected w') c)%nat)
    /\ (startup_returns ext config -> releases_return ext ->
        connected w' = connected w ++ [XAirRemote; ReqClient; EventClient]
        /\ disconnected w' = disconnected w ++ [ReqClient; EventClient; XAirRemote]
        /\ ((forall self w0, result_of (wait self) w0 = Ok tt) ->
            result_of (main ext (Ok config) wait) w = Ok tt)
        /\ (forall e, (forall self w0, result_of (wait self) w0 = Raise e) ->
            result_of (main ext (Ok config) wait) w = Raise e))
    /\ (is_Some (cfg_xair config) -> (exists info, xair_connect ext = Ok info) ->
        xair_exit ext = None ->
        count_occ Client_eq_dec (disconnected w') XAirRemote
        = S (count_occ Client_eq_dec (disconnected w) XAirRemote))
    /\ (startup_returns ext config -> ReqClient_disconnect ext = None ->
        count_occ Client_eq_dec (disconnected w') ReqClient
        = S (count_occ Client_eq_dec (disconnected w) ReqClient)
        /\ (EventClient_disconnect ext = None ->
            count_occ Client_eq_dec (disconnected w') EventClient
            = S (count_occ Client_eq_dec (disconnected w) EventClient))).
Proof.
  intros w w'. split; [| split; [| split]].
  - intros c. apply main_handles_at_most_once. exact Hwait.
  - intros Hstart Hrel. apply main_handles_exactly_once; assumption.
  - apply main_mixer_released_once. exact Hwait.
  - apply main_obs_clients_released. exact Hwait.
Qed.

(** C8, at concrete inputs: a wait that is interrupted from the keyboard,
    and a wait that ends after OBS has closed; the three connections are
    released once each in both.  When the event client does not connect,
    the mixer is released all the same. *)
Lemma connections_released_once_witness :
  count_occ Client_eq_dec
    (disconnected (world_of (main event_client_refused (Ok demo_config) session)
                            (world0 all_unmuted))) XAirRemote = 1%nat
  /\
  (let m := main all_fine (Ok demo_config) interrupted in
   connected (world_of m (world0 all_unmuted)) = [XAirRemote; ReqClient; EventClient]
   /\ disconnected (world_of m (world0 all_unmuted))
      = [ReqClient; EventClient; XAirRemote]
   /\ result_of m (world0 all_unmuted)
      = Raise (Exn KeyboardInterrupt EmptyString None))
  /\ (let m := main all_fine (Ok demo_config) session in
      connected (world_of m (world0 all_unmuted)) = [XAirRemote; ReqClient; EventClient]
      /\ disconnected (world_of m (world0 all_unmuted))
         = [ReqClient; EventClient; XAirRemote]
      /\ result_of m (world0 all_unmuted) = Ok tt).
Proof.
  assert (Hstart : startup_returns all_fine demo_config)
    by (unfold startup_returns; simpl; repeat split; eauto).
  assert (Hrel : releases_return all_fine)
    by (unfold releases_return; simpl; repeat split).
  split; [| split].
  - destruct (connections_released_once (Z -> bool) FlagMixer event_client_refused
                demo_config session session_keeps_handles (world0 all_unmuted))
      as (_ & _ & Hmixer & _).
    apply Hmixer; simpl; eauto.
  - destruct (connections_released_once (Z -> bool) FlagMixer all_fine demo_config
                interrupted interrupted_keeps_handles (world0 all_unmuted))
      as (_ & Honce & _).
    destruct (Honce Hstart Hrel) as (Hc & Hd & _ & Hraise).
    split; [exact Hc|]. split; [exact Hd|].
    apply Hraise. intros self w0. reflexivity.
  - destruct (connections_released_once (Z -> bool) FlagMixer all_fine demo_config
                session session_keeps_handles (world0 all_unmuted))
      as (_ & Honce & _).
    destruct (Honce Hstart Hrel) as (Hc & Hd & Hok & _).
    split; [exact Hc|]. split; [exact Hd|].
    apply Hok. apply session_returns.
Defined.

(** C8 as stated fails.  When the event client does not connect, the
    request client, already connected, is never released; when the request
    client raises while disconnecting, the event client is never released. *)
Lemma connection_left_unreleased :
  leaked ReqClient
    (world_of (main event_client_refused (Ok demo_config) session)
              (world0 all_unmuted))
  /\ leaked EventClient
       (world_of (main request_disconnect_raises (Ok demo_config) session)
                 (world0 all_unmuted)).
Proof.
  unfold leaked. simpl. split; split.
  - right. left. reflexivity.
  - intros [Heq|[]]. discriminate Heq.
  - right. right. left. reflexivity.
  - intros [Heq|[]]. discriminate Heq.
Qed.

(** * Further properties of the code *)

(** ** The scene change handler on any mixer *)

Section HandlerAnyMixer.
Context {X : Type} `{MixerControl X}.

Lemma perform_only_mixer_calls kind index w :
  only_mixer_calls [(kind, index)] w (world_of (perform kind (index - 1)) w).
Proof.
  assert (Hin : forall c, call_ref c = index - 1 ->
            exists k i, In (k, i) [(kind, index)] /\ call_ref c = i - 1)
    by (intros c Hc; exists kind, index; split; [left; reflexivity | exact Hc]).
  unfold only_mixer_calls, world_of.
  destruct kind; unfold perform, bind, mixer_strip_mute, mixer_strip_set_mute.
  - destruct (strip_mute_set _ _ _); simpl; repeat split;
      exists [SetMute (index - 1) true]; (split; [reflexivity|]);
      repeat constructor; apply Hin; reflexivity.
  - destruct (strip_mute_set _ _ _); simpl; repeat split;
      exists [SetMute (index - 1) false]; (split; [reflexivity|]);
      repeat constructor; apply Hin; reflexivity.
  - destruct (strip_mute_get _ _) as [b|e]; simpl.
    + destruct (strip_mute_set _ _ _); simpl; repeat split;
        exists [ReadMute (index - 1); SetMute (index - 1) (negb b)];
        (split; [rewrite <- app_assoc; reflexivity|]);
        repeat constructor; apply Hin; reflexivity.
    + repeat split. exists [ReadMute (index - 1)]. split; [reflexivity|].
      repeat constructor; apply Hin; reflexivity.
Qed.

Lemma only_mixer_calls_trans ps qs (w1 w2 w3 : World X) :
  only_mixer_calls ps w1 w2 -> only_mixer_calls qs w2 w3 ->
  only_mixer_calls (ps ++ qs) w1 w3.
Proof.
  intros (Ho & Hs & Hr & Hc & Hd & n1 & Hn1 & Hf1)
         (Ho' & Hs' & Hr' & Hc' & Hd' & n2 & Hn2 & Hf2).
  unfold only_mixer_calls.
  rewrite Ho', Hs', Hr', Hc', Hd', Ho, Hs, Hr, Hc, Hd. repeat split.
  exists (n1 ++ n2). split; [rewrite Hn2, Hn1, app_assoc; reflexivity|].
  apply Forall_app. split.
  - eapply Forall_impl; [exact Hf1|]. intros c (k & i & Hin & Href).
    exists k, i. split; [apply in_or_app; left; exact Hin | exact Href].
  - eapply Forall_impl; [exact Hf2|]. intros c (k & i & Hin & Href).
    exists k, i. split; [apply in_or_app; right; exact Hin | exact Href].
Qed.

Lemma only_mixer_calls_refl (w : World X) : only_mixer_calls [] w w.
Proof.
  unfold only_mixer_calls. repeat split. exists []. split;
    [rewrite app_nil_r; reflexivity | constructor].
Qed.

Lemma only_mixer_calls_weaken ps (w w' : World X) :
  only_mixer_calls [] w w' -> only_mixer_calls ps w w'.
Proof.
  intros (Ho & Hs & Hr & Hc & Hd & new & Hn & Hf).
  unfold only_mixer_calls. repeat split; try assumption.
  exists new. split; [exact Hn|].
  eapply Forall_impl; [exact Hf|]. intros c (k & i & [] & _).
Qed.

Lemma dispatch_pairs_only_mixer_calls ps w :
  only_mixer_calls ps w (world_of (dispatch_pairs ps) w).
Proof.
  revert w. induction ps as [|[kind index] ps IH]; intros w.
  - apply only_mixer_calls_refl.
  - pose proof (perform_only_mixer_calls kind index w) as Hp.
    unfold world_of, dispatch_pairs in *. rewrite for_cons. unfold bind.
    destruct (perform kind (index - 1) w) as [[[]|e] w1] eqn:Hrun; simpl in Hp.
    + change ((kind, index) :: ps) with ([(kind, index)] ++ ps).
      apply (only_mixer_calls_trans _ _ w w1); [exact Hp | apply IH].
    + simpl. change ((kind, index) :: ps) with ([(kind, index)] ++ ps).
      apply (only_mixer_calls_trans _ _ w w1 w1 Hp).
      apply only_mixer_calls_weaken, only_mixer_calls_refl.
Qed.

(** A run of pairs whose prefix returns and whose next pair raises. *)
Lemma dispatch_pairs_stops pre kind index post w e :
  result_of (dispatch_pairs pre) w = Ok tt ->
  result_of (perform kind (index - 1)) (world_of (dispatch_pairs pre) w) = Raise e ->
  dispatch_pairs (pre ++ (kind, index) :: post) w =
    (Raise e, world_of (perform kind (index - 1)) (world_of (dispatch_pairs pre) w)).
Proof.
  intros Hpre Hfail. rewrite dispatch_pairs_app. unfold bind, result_of, world_of in *.
  destruct (dispatch_pairs pre w) as [[[]|e0] w1]; simpl in *; [|discriminate].
  unfold dispatch_pairs. rewrite for_cons. unfold bind.
  destruct (perform kind (index - 1) w1) as [[[]|e1] w2]; simpl in *;
    [discriminate|]. congruence.
Qed.

Lemma dispatch_pairs_returns ps w :
  always_returns X -> result_of (dispatch_pairs ps) w = Ok tt.
Proof.
  intros [Hget Hset]. revert w. induction ps as [|[kind index] ps IH]; intros w.
  - reflexivity.
  - unfold result_of, dispatch_pairs in *. rewrite for_cons. unfold bind.
    assert (Hp : exists w1, perform kind (index - 1) w = (Ok tt, w1)).
    { destruct kind; unfold perform, bind, mixer_strip_mute, mixer_strip_set_mute.
      - destruct (Hset (index - 1) true (mixer w)) as [x' ->]. eauto.
      - destruct (Hset (index - 1) false (mixer w)) as [x' ->]. eauto.
      - destruct (Hget (index - 1) (mixer w)) as [b ->]. simpl.
        destruct (Hset (index - 1) (negb b) (mixer w)) as [x' ->]. eauto. }
    destruct Hp as [w1 ->]. apply IH.
Qed.

End HandlerAnyMixer.

Lemma scene_changed_only_mixer_calls
    {X : Type} `{MixerControl X} (self : Observer) (data : SceneChangedData)
    (w : World X) :
  only_mixer_calls
    (flatten (default [] (_mapping self !! scene_name data)))
    (world_of (print ("Switched to scene " +:+ scene_name data)) w)
    (world_of (on_current_program_scene_changed self data) w).
Proof.
  destruct data as [scene]. simpl scene_name.
  destruct (_mapping self !! scene) as [aset|] eqn:Hget; simpl default.
  - unfold world_of at 2. rewrite (scene_changed_flat self scene aset w Hget).
    unfold bind. simpl. apply dispatch_pairs_only_mixer_calls.
  - unfold world_of, on_current_program_scene_changed, bind. simpl.
    rewrite Hget. apply only_mixer_calls_refl.
Qed.

(** X1. Whatever the mixer and whether or not a call raises, every call the
    handler makes addresses reference [i - 1] for an index [i] declared
    under mute, unmute or toggle in the ActionSet of the scene; for a scene
    without such an index it makes none. *)
Theorem handler_calls_only_declared_refs
    (X : Type) (HX : MixerControl X) (self : Observer) (data : SceneChangedData)
    (w : World X) :
  exists new : list MixerCall,
    calls (world_of (on_current_program_scene_changed self data) w) = calls w ++ new
    /\ Forall (fun c => exists aset kind i,
                 _mapping self !! scene_name data = Some aset
                 /\ In (kind, i) (flatten aset)
                 /\ call_ref c = i - 1) new.
Proof.
  destruct (scene_changed_only_mixer_calls self data w)
    as (_ & _ & _ & _ & _ & new & Hnew & Hall).
  exists new. split; [exact Hnew|].
  eapply Forall_impl; [exact Hall|]. intros c (kind & i & Hin & Href).
  destruct (_mapping self !! scene_name data) as [aset|]; simpl in Hin.
  - exists aset, kind, i. repeat split; assumption.
  - contradiction.
Qed.

(** X2. Whatever the mixer and whether or not a call raises, the handler
    prints exactly one line, naming the scene, and leaves the stop event,
    the registered callbacks and the connections as they were. *)
Theorem handler_leaves_rest_of_world
    (X : Type) (HX : MixerControl X) (self : Observer) (data : SceneChangedData)
    (w : World X) :
  let w' := world_of (on_current_program_scene_changed self data) w in
  stdout w' = stdout w ++ ["Switched to scene " +:+ scene_name data]
  /\ stop_event w' = stop_event w
  /\ registered w' = registered w
  /\ connected w' = connected w
  /\ disconnected w' = disconnected w.
Proof.
  destruct (scene_changed_only_mixer_calls self data w)
    as (Ho & Hs & Hr & Hc & Hd & _).
  simpl. rewrite Ho, Hs, Hr, Hc, Hd. repeat split.
Qed.

(** X3. The handler stops at the first mixer call that raises: when the
    pairs before a pair have returned and that pair raises, the handler
    raises the same exception and the world is the one the failing pair
    left, so no later pair is run.  When it is the read of a toggle that
    raises, the only call of that pair is the read and the mixer is not
    written. *)
Theorem handler_stops_at_failing_call
    (X : Type) (HX : MixerControl X) (self : Observer) (scene : string)
    (aset : ActionSet) (pre post : list (ActionKind * Z)) (kind : ActionKind)
    (i : Z) (e : exn) (w : World X)
    (Hget : _mapping self !! scene = Some aset)
    (Hsplit : flatten aset = pre ++ (kind, i) :: post)
    (Hpre : result_of (dispatch_pairs pre)
              (world_of (print ("Switched to scene " +:+ scene)) w) = Ok tt)
    (Hfail : result_of (perform kind (i - 1))
               (world_of (dispatch_pairs pre)
                  (world_of (print ("Switched to scene " +:+ scene)) w)) = Raise e) :
  let w1 := world_of (dispatch_pairs pre)
              (world_of (print ("Switched to scene " +:+ scene)) w) in
  on_current_program_scene_changed self {| scene_name := scene |} w =
    (Raise e, world_of (perform kind (i - 1)) w1)
  /\ (kind = Toggle -> forall e', strip_mute_get (i - 1) (mixer w1) = Raise e' ->
      e = e'
      /\ calls (world_of (perform kind (i - 1)) w1) = calls w1 ++ [ReadMute (i - 1)]
      /\ mixer (world_of (perform kind (i - 1)) w1) = mixer w1).
Proof.
  intros w1. split.
  - rewrite (scene_changed_flat self scene aset w Hget), Hsplit.
    unfold bind. simpl. apply dispatch_pairs_stops; assumption.
  - intros -> e' Hread. fold w1 in Hfail.
    unfold result_of, world_of, perform, bind, mixer_strip_mute in *.
    rewrite Hread in *. simpl in *. repeat split. congruence.
Qed.

(** X3 on a mixer of two strips: START mutes indices 1 and 3, the second of
    which has no strip. *)
Lemma handler_stops_at_failing_call_witness :
  on_current_program_scene_changed demo {| scene_name := "START" |}
    (strips0 [false; false])
  = (Raise index_error,
     mkWorld [true; false] [SetMute 0 true; SetMute 2 true]
             ["Switched to scene START"] false [] [] []).
Proof.
  exact (proj1 (handler_stops_at_failing_call (list bool) StripMixer demo "START"
                  [("mute", [1; 3])] [(Mute, 1)] [] Mute 3 index_error
                  (strips0 [false; false]) eq_refl eq_refl eq_refl eq_refl)).
Defined.

(** X4. For a mapping of the documented shape (every key of a scene's
    table holds a list of integers, as the type of [_mapping] has it) and a
    mixer whose calls always return, the handler returns normally for every
    scene name: the subscript of [actions] never raises [KeyError], being
    reached only under the membership test. *)
Theorem handler_returns_when_mixer_returns
    (X : Type) (HX : MixerControl X) (Hreturns : always_returns X)
    (self : Observer) (data : SceneChangedData) (w : World X) :
  result_of (on_current_program_scene_changed self data) w = Ok tt.
Proof.
  destruct data as [scene].
  destruct (_mapping self !! scene) as [aset|] eqn:Hget.
  - unfold result_of. rewrite (scene_changed_flat self scene aset w Hget).
    unfold bind. simpl. apply dispatch_pairs_returns. exact Hreturns.
  - unfold result_of, on_current_program_scene_changed, bind. simpl.
    rewrite Hget. reflexivity.
Qed.

Lemma FlagMixer_always_returns : always_returns (Z -> bool).
Proof. split; intros; eexists; reflexivity. Defined.

Lemma handler_returns_when_mixer_returns_witness :
  result_of (on_current_program_scene_changed demo {| scene_name := "MIXED" |})
            (world0 all_unmuted) = Ok tt.
Proof.
  exact (handler_returns_when_mixer_returns (Z -> bool) FlagMixer
           FlagMixer_always_returns demo {| scene_name := "MIXED" |}
           (world0 all_unmuted)).
Defined.

(** ** The scene change handler against the table of flags *)

(** The flag of a reference after a run of pairs depends on the earlier
    flag of that reference only. *)
Lemma apply_pairs_local ps (f g : Z -> bool) r :
  f r = g r -> apply_pairs ps f r = apply_pairs ps g r.
Proof.
  revert f g. induction ps as [|[kind index] ps IH]; intros f g Hfg; simpl.
  - exact Hfg.
  - apply IH. destruct (decide (r = index - 1)) as [->|Hne].
    + rewrite !apply_kind_same, Hfg. reflexivity.
    + rewrite !apply_kind_other by assumption. exact Hfg.
Qed.

(** Without a toggle, a reference that some pair names ends with a flag
    that does not depend on the flags before. *)
Lemma apply_pairs_named_constant ps (f g : Z -> bool) r :
  (forall i, ~ In (Toggle, i) ps) ->
  (exists kind i, In (kind, i) ps /\ i - 1 = r) ->
  apply_pairs ps f r = apply_pairs ps g r.
Proof.
  revert f g. induction ps as [|[kind index] ps IH]; intros f g Hnt Hnamed.
  - destruct Hnamed as (k & i & [] & _).
  - simpl.
    destruct (decide (Exists (fun p => snd p - 1 = r) ps)) as [Hex|Hnex].
    + apply IH.
      * intros i Hin. apply (Hnt i). right. exact Hin.
      * apply Exists_exists in Hex. destruct Hex as ([k i] & Hin & Href).
        exists k, i. split; [apply list_elem_of_In; exact Hin | exact Href].
    + assert (Hhere : index - 1 = r).
      { destruct Hnamed as (k & i & [Heq|Hin] & Href).
        - inversion Heq. subst. reflexivity.
        - exfalso. apply Hnex. apply Exists_exists. exists (k, i).
          split; [apply list_elem_of_In; exact Hin | exact Href]. }
      apply apply_pairs_local. subst r. rewrite !apply_kind_same.
      destruct kind; try reflexivity.
      exfalso. apply (Hnt index). left. reflexivity.
Qed.

Lemma apply_pairs_idempotent ps (f : Z -> bool) r :
  (forall i, ~ In (Toggle, i) ps) ->
  apply_pairs ps (apply_pairs ps f) r = apply_pairs ps f r.
Proof.
  intros Hnt.
  destruct (decide (Exists (fun p => snd p - 1 = r) ps)) as [Hex|Hnex].
  - apply apply_pairs_named_constant; [exact Hnt|].
    apply Exists_exists in Hex. destruct Hex as ([k i] & Hin & Href).
    exists k, i. split; [apply list_elem_of_In; exact Hin | exact Href].
  - replace r with (r + 1 - 1) by lia. apply apply_pairs_frame.
    intros kind j Hin Heq. apply Hnex. apply Exists_exists. exists (kind, j).
    split; [apply list_elem_of_In; exact Hin | simpl; lia].
Qed.

Lemma expected_calls_no_toggle ps (f g : Z -> bool) :
  (forall i, ~ In (Toggle, i) ps) -> expected_calls ps f = expected_calls ps g.
Proof.
  revert f g. induction ps as [|[kind index] ps IH]; intros f g Hnt; simpl.
  - reflexivity.
  - rewrite (IH (apply_kind kind (index - 1) f) (apply_kind kind (index - 1) g))
      by (intros i Hin; apply (Hnt i); right; exact Hin).
    destruct kind; try reflexivity.
    exfalso. apply (Hnt index). left. reflexivity.
Qed.

(** With toggles only, negating the flag of a reference before the run
    negates it after the run. *)
Lemma apply_pairs_toggles_negate ps (f g : Z -> bool) r :
  (forall kind i, In (kind, i) ps -> kind = Toggle) ->
  f r = negb (g r) -> apply_pairs ps f r = negb (apply_pairs ps g r).
Proof.
  revert f g. induction ps as [|[kind index] ps IH]; intros f g Hall Hfg; simpl.
  - exact Hfg.
  - assert (kind = Toggle) as -> by (apply (Hall kind index); left; reflexivity).
    apply IH; [intros k i Hin; apply (Hall k i); right; exact Hin|].
    destruct (decide (r = index - 1)) as [->|Hne].
    + rewrite !apply_kind_same, Hfg. reflexivity.
    + rewrite !apply_kind_other by assumption. exact Hfg.
Qed.

Lemma apply_pairs_toggles_twice ps (f : Z -> bool) r :
  (forall kind i, In (kind, i) ps -> kind = Toggle) ->
  apply_pairs ps (apply_pairs ps f) r = f r.
Proof.
  revert f. induction ps as [|[kind index] ps IH]; intros f Hall.
  - reflexivity.
  - assert (kind = Toggle) as -> by (apply (Hall kind index); left; reflexivity).
    assert (Hrest : forall k i, In (k, i) ps -> k = Toggle)
      by (intros k i Hin; apply (Hall k i); right; exact Hin).
    simpl.
    set (g := apply_pairs ps (flag_set (index - 1) (negb (f (index - 1))) f)).
    destruct (decide (r = index - 1)) as [->|Hne].
    + rewrite (apply_pairs_toggles_negate ps _ g (index - 1) Hrest).
      * unfold g. rewrite (IH _ Hrest). unfold flag_set.
        rewrite bool_decide_eq_true_2 by reflexivity. apply negb_involutive.
      * unfold flag_set. rewrite bool_decide_eq_true_2 by reflexivity. reflexivity.
    + rewrite (apply_pairs_local ps _ g r).
      * unfold g. rewrite (IH _ Hrest). unfold flag_set.
        rewrite bool_decide_eq_false_2 by assumption. reflexivity.
      * unfold flag_set. rewrite bool_decide_eq_false_2 by assumption. reflexivity.
Qed.

Lemma scene_changed_twice_flags (self : Observer) scene aset (w : World (Z -> bool)) :
  _mapping self !! scene = Some aset ->
  let m := on_current_program_scene_changed self {| scene_name := scene |} in
  mixer (world_of m (world_of m w))
    = apply_pairs (flatten aset) (apply_pairs (flatten aset) (mixer w))
  /\ mixer (world_of m w) = apply_pairs (flatten aset) (mixer w)
  /\ calls (world_of m (world_of m w))
     = (calls w ++ expected_calls (flatten aset) (mixer w))
         ++ expected_calls (flatten aset) (apply_pairs (flatten aset) (mixer w)).
Proof.
  intros Hget m. unfold m, world_of.
  rewrite (scene_changed_flags self scene aset w Hget). simpl.
  rewrite (scene_changed_flags self scene aset _ Hget). simpl.
  repeat split.
Qed.

(** X5. Against the table of flags, the handler leaves the flag of every
    reference that is not [i - 1] for an index [i] declared under mute,
    unmute or toggle in the scene's ActionSet; for an unmapped scene that
    is every reference. *)
Theorem handler_leaves_other_flags
    (self : Observer) (scene : string) (r : Z)
    (Hother : forall aset kind i,
        _mapping self !! scene = Some aset -> In (kind, i) (flatten aset) ->
        i - 1 <> r) :
  forall w : World (Z -> bool),
    mixer (world_of (on_current_program_scene_changed self
                       {| scene_name := scene |}) w) r = mixer w r.
Proof.
  intros w. destruct (_mapping self !! scene) as [aset|] eqn:Hget.
  - unfold world_of. rewrite (scene_changed_flags self scene aset w Hget). simpl.
    replace r with (r + 1 - 1) by lia. apply apply_pairs_frame.
    intros kind j Hin Heq. apply (Hother aset kind j eq_refl Hin). lia.
  - unfold world_of, on_current_program_scene_changed, bind. simpl.
    rewrite Hget. reflexivity.
Qed.

Lemma handler_leaves_other_flags_witness :
  mixer (world_of (on_current_program_scene_changed demo {| scene_name := "START" |})
                  (world0 (flag_set 1 true all_unmuted))) 1 = true.
Proof.
  apply (handler_leaves_other_flags demo "START" 1).
  intros aset kind i Hget Hin. vm_compute in Hget. injection Hget as <-.
  simpl in Hin. destruct Hin as [Heq|[Heq|[]]]; inversion Heq; lia.
Defined.

(** X6. Against the table of flags, for a scene whose ActionSet declares no
    index under toggle, handling the scene a second time makes the same
    calls as the first time and leaves every flag as the first time left it. *)
Theorem handler_idempotent_without_toggle
    (self : Observer) (scene : string) (aset : ActionSet)
    (Hget : _mapping self !! scene = Some aset)
    (Hnotoggle : forall i, ~ In (Toggle, i) (flatten aset)) :
  forall w : World (Z -> bool),
    let m := on_current_program_scene_changed self {| scene_name := scene |} in
    (forall r, mixer (world_of m (world_of m w)) r = mixer (world_of m w) r)
    /\ exists once, calls (world_of m w) = calls w ++ once
         /\ calls (world_of m (world_of m w)) = (calls w ++ once) ++ once.
Proof.
  intros w m.
  destruct (scene_changed_twice_flags self scene aset w Hget) as (Htwice & Honce & Hcalls).
  fold m in Htwice, Honce, Hcalls. split.
  - intros r. rewrite Htwice, Honce. apply apply_pairs_idempotent. exact Hnotoggle.
  - exists (expected_calls (flatten aset) (mixer w)). split.
    + unfold m, world_of. rewrite (scene_changed_flags self scene aset w Hget).
      reflexivity.
    + rewrite Hcalls. f_equal. apply expected_calls_no_toggle. exact Hnotoggle.
Qed.

Lemma handler_idempotent_without_toggle_witness :
  let m := on_current_program_scene_changed demo {| scene_name := "BRB" |} in
  mixer (world_of m (world_of m (world0 all_unmuted))) 0
  = mixer (world_of m (world0 all_unmuted)) 0.
Proof.
  intros m.
  refine (proj1 (handler_idempotent_without_toggle demo "BRB"
                   [("mute", [1]); ("unmute", [1])] eq_refl _ (world0 all_unmuted))
                0).
  intros i Hin. simpl in Hin. destruct Hin as [Heq|[Heq|[]]]; discriminate Heq.
Defined.

(** X7. Against the table of flags, for a scene whose ActionSet declares
    indices under toggle only, handling the scene twice leaves every flag
    as it was before the first time. *)
Theorem handler_toggle_only_twice_restores
    (self : Observer) (scene : string) (aset : ActionSet)
    (Hget : _mapping self !! scene = Some aset)
    (Htoggle : forall kind i, In (kind, i) (flatten aset) -> kind = Toggle) :
  forall (w : World (Z -> bool)) (r : Z),
    let m := on_current_program_scene_changed self {| scene_name := scene |} in
    mixer (world_of m (world_of m w)) r = mixer w r.
Proof.
  intros w r m.
  destruct (scene_changed_twice_flags self scene aset w Hget) as (Htwice & _ & _).
  fold m in Htwice. rewrite Htwice. apply apply_pairs_toggles_twice. exact Htoggle.
Qed.

Lemma handler_toggle_only_twice_restores_witness :
  let m := on_current_program_scene_changed demo {| scene_name := "LIVE" |} in
  mixer (world_of m (world_of m (world0 (flag_set 1 true all_unmuted)))) 1 = true.
Proof.
  intros m.
  refine (handler_toggle_only_twice_restores demo "LIVE" [("toggle", [2])] eq_refl _
            (world0 (flag_set 1 true all_unmuted)) 1).
  intros kind i Hin. simpl in Hin. destruct Hin as [Heq|[]]. congruence.
Defined.

(** ** load_config: the outcomes other than the two documented errors *)

Section LoadConfigMore.
Context {Path File Config : Type}.
Variable Path_ : string -> Path.
Variable truediv : Path -> string -> Path.
Variables cwd file_parent home : Path.
Variable is_file : Path -> bool.
Variable str : Path -> string.
Variable open_rb : Path -> result File.
Variable tomllib_load : File -> result Config.

Local Abbreviation get_filepath :=
  (ConfigFile.get_filepath Path_ truediv cwd file_parent home is_file).
Local Abbreviation load_config :=
  (ConfigFile.load_config Path_ truediv cwd file_parent home is_file str
     open_rb tomllib_load).

(** X8. [load_config] returns a configuration exactly when some candidate
    is a file and the first such candidate opens and parses; what it
    returns is the parse of that file. *)
Theorem load_config_returns_iff (config : string) (parsed : Config) :
  load_config config = Ok parsed <->
  exists (filepath : Path) (f : File),
    get_filepath config = Some filepath
    /\ open_rb filepath = Ok f
    /\ tomllib_load f = Ok parsed.
Proof.
  unfold ConfigFile.load_config.
  destruct (get_filepath config) as [filepath|] eqn:Hres.
  - unfold try_except, result_bind. split.
    + intros Hok. destruct (open_rb filepath) as [f|e] eqn:Hopen.
      * destruct (tomllib_load f) as [c|e] eqn:Hparse.
        -- exists filepath, f. repeat split; congruence.
        -- destruct (is_TOMLDecodeError e); discriminate Hok.
      * destruct (is_TOMLDecodeError e); discriminate Hok.
    + intros (p & f & [= <-] & Hopen & Hparse). rewrite Hopen, Hparse. reflexivity.
  - split; [discriminate|]. intros (p & f & Hp & _). discriminate Hp.
Qed.


End LoadConfigMore.


(** ** main: failures at start-up and at teardown *)

Section MainMore.
Context {X : Type} `{MixerControl X}.

(** X10. A configuration that did not load, a configuration without the
    xair table, and a mixer that does not connect each end [main] with the
    exception concerned before anything else has happened: nothing is
    printed, no connection is opened or released, and the wait is not
    entered. *)
Theorem main_fails_before_connecting
    (ext : Externals) (wait : Observer -> M X unit) (w : World X) :
  (forall e, main ext (Raise e) wait w = (Raise e, w))
  /\ (forall config, cfg_xair config = None ->
        main ext (Ok config) wait w = (Raise (Exn KeyError "xair" None), w))
  /\ (forall config kwargs e,
        cfg_xair config = Some kwargs -> xair_connect ext = Raise e ->
        main ext (Ok config) wait w = (Raise e, w)).
Proof.
  split; [| split].
  - intros e. reflexivity.
  - intros config Hx. unfold main, bind, lift, subscript. simpl.
    rewrite Hx. reflexivity.
  - intros config kwargs e Hx Hconnect.
    unfold main, with_, xair_api_connect, bind, lift, subscript. simpl.
    rewrite Hx. simpl. rewrite Hconnect. reflexivity.
Qed.

(** X11. When the mixer has connected and the construction of the Observer
    does not go through, [main] raises; the wait is not entered (the
    outcome is the same whatever the wait would do); and no OBS client is
    disconnected, although the request client, or both clients, may have
    connected. *)
Theorem main_observer_construction_fails
    (ext : Externals) (config : Config) (kwargs : Kwargs)
    (info : string * string * string) (w : World X)
    (Hxair : cfg_xair config = Some kwargs)
    (Hconnect : xair_connect ext = Ok info)
    (Hfails : construction_fails ext config) :
  (forall wait wait' : Observer -> M X unit,
     main ext (Ok config) wait w = main ext (Ok config) wait' w)
  /\ forall wait : Observer -> M X unit,
       let w' := world_of (main ext (Ok config) wait) w in
       (exists e, result_of (main ext (Ok config) wait) w = Raise e)
       /\ count_occ Client_eq_dec (disconnected w') ReqClient
          = count_occ Client_eq_dec (disconnected w) ReqClient
       /\ count_occ Client_eq_dec (disconnected w') EventClient
          = count_occ Client_eq_dec (disconnected w) EventClient.
Proof.
  destruct ext as [xc xe ri ei gv rd ed], config as [cx co cm].
  destruct info as [[kind ip] port].
  unfold construction_fails in Hfails. simpl in *. subst cx xc.
  split.
  - intros wait wait'. run_main.
    destruct Hfails as [->|[->|[[e ->]|[[e ->]|[e ->]]]]]; simpl;
      repeat (match goal with
              | |- context [match ?x with _ => _ end] => is_var x; destruct x; simpl
              end); reflexivity.
  - intros wait. run_main.
    destruct Hfails as [->|[->|[[e ->]|[[e ->]|[e ->]]]]]; simpl;
      repeat (match goal with
              | |- context [match ?x with _ => _ end] => is_var x; destruct x; simpl
              end);
      unfold released, opened; simpl;
      rewrite ?count_occ_app; simpl; repeat split; eauto; lia.
Qed.


(** X12. Once the mixer has connected, and provided the exit of its context
    manager returns, every path through [main] releases the mixer exactly
    once, and releases it last: after the OBS clients when the Observer was
    torn down, and also when the construction of the Observer or a
    disconnect raised.  The wait is any computation that opens and releases
    nothing itself. *)
Theorem main_releases_mixer_last
    (ext : Externals) (config : Config) (kwargs : Kwargs)
    (info : string * string * string) (wait : Observer -> M X unit) (w : World X)
    (Hxair : cfg_xair config = Some kwargs)
    (Hconnect : xair_connect ext = Ok info)
    (Hexit : xair_exit ext = None)
    (Hwait : forall self, keeps_handles (wait self)) :
  let w' := world_of (main ext (Ok config) wait) w in
  count_occ Client_eq_dec (disconnected w') XAirRemote
    = S (count_occ Client_eq_dec (disconnected w) XAirRemote)
  /\ exists before, disconnected w' = before ++ [XAirRemote].
Proof.
  destruct ext as [xc xe ri ei gv rd ed], config as [cx co cm].
  destruct info as [[kind ip] port]. simpl in *. subst cx xc xe.
  run_main.
  repeat step_main wait Hwait;
    unfold released, opened; simpl;
    rewrite ?Hc, ?Hd; simpl; rewrite ?count_occ_app; simpl;
    (split; [lia | eexists; reflexivity]).
Qed.


(** X13. When the start-up has gone through and the request client raises
    while disconnecting, that exception is what [main] raises, whether the
    wait returned or raised: an exception of the wait is replaced by it.
    The event client is then not disconnected; the mixer is still released
    when the exit of its context manager returns. *)
Theorem main_disconnect_error_replaces_wait_error
    (ext : Externals) (config : Config) (wait : Observer -> M X unit)
    (e1 : exn) (w : World X)
    (Hstart : startup_returns ext config)
    (Hdisconnect : ReqClient_disconnect ext = Some e1)
    (Hexit : xair_exit ext = None)
    (Hwait : forall self, keeps_handles (wait self)) :
  let w' := world_of (main ext (Ok config) wait) w in
  result_of (main ext (Ok config) wait) w = Raise e1
  /\ connected w' = connected w ++ [XAirRemote; ReqClient; EventClient]
  /\ disconnected w' = disconnected w ++ [XAirRemote].
Proof.
  destruct ext as [xc xe ri ei gv rd ed], config as [cx co cm].
  unfold startup_returns in Hstart. simpl in *.
  destruct Hstart as ([kw Hkw] & [ob Hob] & [mp Hmp] & [[[kind ip] port] Hxc]
                      & Hri & Hei & [resp Hgv]).
  subst. run_main.
  step_main wait Hwait; rewrite Hc, Hd, <- !app_assoc; repeat split.
Qed.

End MainMore.

Lemma main_observer_construction_fails_witness :
  let m := main version_request_fails (Ok demo_config) session in
  result_of m (world0 all_unmuted)
    = Raise (Exn (OtherError "OBSSDKTimeoutError") "No response" None)
  /\ connected (world_of m (world0 all_unmuted)) = [XAirRemote; ReqClient; EventClient]
  /\ disconnected (world_of m (world0 all_unmuted)) = [XAirRemote]
  /\ main version_request_fails (Ok demo_config) session (world0 all_unmuted)
     = main version_request_fails (Ok demo_config) interrupted (world0 all_unmuted).
Proof.
  intros m. split; [reflexivity|]. split; [reflexivity|]. split; [reflexivity|].
  refine (proj1 (main_observer_construction_fails (X:=Z -> bool)
                   version_request_fails demo_config
                   [("ip", "mixer.local")] ("XR18", "192.168.1.20", "10024")
                   (world0 all_unmuted) eq_refl eq_refl _) session interrupted).
  unfold construction_fails. simpl. do 4 right. eexists. reflexivity.
Defined.

Lemma main_releases_mixer_last_witness :
  let w' := world_of (main request_disconnect_raises (Ok demo_config) interrupted)
                     (world0 all_unmuted) in
  count_occ Client_eq_dec (disconnected w') XAirRemote = 1%nat
  /\ exists before, disconnected w' = before ++ [XAirRemote].
Proof.
  exact (main_releases_mixer_last (X:=Z -> bool) request_disconnect_raises demo_config
           [("ip", "mixer.local")] ("XR18", "192.168.1.20", "10024")
           interrupted (world0 all_unmuted) eq_refl eq_refl eq_refl
           interrupted_keeps_handles).
Defined.

Lemma main_disconnect_error_replaces_wait_error_witness :
  result_of (main request_disconnect_raises (Ok demo_config) interrupted)
            (world0 all_unmuted)
  = Raise (Exn (OtherError "OSError") "Broken pipe" None).
Proof.
  refine (proj1 (main_disconnect_error_replaces_wait_error (X:=Z -> bool)
                   request_disconnect_raises demo_config interrupted _
                   (world0 all_unmuted) _ eq_refl eq_refl
                   interrupted_keeps_handles)).
  unfold startup_returns. simpl. repeat split; eauto.
Defined.
